(** * scripts/deploy-model.sh: the model-deployment pipeline

    A shallow embedding of the deployment script.  The script is a
    sequence of shell functions that talk to external programs ([oc],
    [helm], [curl]) and write a log.  It is embedded as a computation
    that returns the list of events it performed (log lines and calls
    of external commands, in order) together with the way it ended.

    The answers of the external programs are not computed by the
    script: they are read from a [world] record, one field per command
    the script issues.  A run issues each command at most once for
    given arguments, so one answer per command describes any
    behaviour of the surroundings.  Every statement below is
    quantified over all worlds unless it names one.

    Shell options [set -euo pipefail] are part of the program:
    - a simple command that returns a non-zero status outside a
      condition ends the script ([ErrExit]);
    - a pipeline fails when any of its commands fails, so an
      assignment [x=$(cmd | filter)] ends the script when it does;
    - expanding a variable that was never assigned ends the script
      ([Unbound]).

    Writing a log line ([echo ... | tee -a "$LOG_FILE"]) is taken to
    succeed. *)

From Stdlib Require Import String Ascii List ZArith Bool Lia.
From Stdlib Require Import DecimalString FunInd Sorted.
Import ListNotations.
Open Scope list_scope.
Open Scope string_scope.

(** ** Events *)

Inductive severity := INFO | SUCCESS | WARNING | ERROR.

(** The external commands the script runs.  Text filters that only
    post-process the output of such a command ([wc], [grep], [awk],
    [jq] at the end of a pipeline) are not listed: their effect is
    part of the answer the world gives. *)
Inductive call :=
| CommandV (tool : string)                    (* command -v "$tool" *)
| OcWhoami                                    (* oc whoami *)
| OcGetNodes                                  (* oc get nodes -l accelerator=h100 --no-headers *)
| OcDescribeNodes                             (* oc describe nodes -l accelerator=h100 *)
| OcGetStorageclass                           (* oc get storageclass --no-headers *)
| OcGetNamespace (ns : string)                (* oc get namespace NS *)
| OcCreateNamespace (ns : string)             (* oc create namespace NS *)
| OcApply (path ns : string)                  (* oc apply -f PATH -n NS *)
| Helm (args : list string)                   (* helm ARGS *)
| OcRolloutStatus (name ns timeout : string)  (* oc rollout status deployment/NAME -n NS --timeout=T *)
| OcLogs (app ns : string) (tail : nat)       (* oc logs -l app=APP -n NS --tail=N *)
| OcGetService (name ns : string)             (* oc get service NAME -n NS *)
| OcGetEndpoints (name ns : string)           (* oc get endpoints NAME -n NS -o json *)
| OcGetRoute (name ns : string)               (* oc get route NAME -n NS *)
| OcGetRouteHost (name ns : string)           (* oc get route NAME -n NS -o jsonpath='{.spec.host}' *)
| Curl (url : string).                        (* curl -f -s URL *)

Inductive event :=
| Log (s : severity) (msg : string)
| Usage                                       (* the help text printed by usage() *)
| Call (c : call).

(** ** The shell monad: a trace of events and either a value or the
    reason the script stopped. *)

Inductive abort :=
| ExitOne   (* an explicit [exit 1] *)
| ErrExit   (* set -e: a command or pipeline returned non-zero *)
| Unbound.  (* set -u: an unset variable was expanded *)

Inductive res (A : Type) :=
| Ret (a : A)
| Abort (r : abort).
Arguments Ret {A} a.
Arguments Abort {A} r.

Definition Sh (A : Type) : Type := (list event * res A)%type.

Definition ret {A} (a : A) : Sh A := ([], Ret a).

Definition bind {A B} (m : Sh A) (f : A -> Sh B) : Sh B :=
  match m with
  | (t, Ret a) => let '(t', r) := f a in ((t ++ t')%list, r)
  | (t, Abort r) => (t, Abort r)
  end.

Notation "x <- c1 ;; c2" := (bind c1 (fun x => c2))
  (at level 61, c1 at next level, right associativity).
Notation "c1 ;; c2" := (bind c1 (fun _ => c2))
  (at level 61, right associativity).

Definition trace {A} (m : Sh A) : list event := fst m.
Definition result {A} (m : Sh A) : res A := snd m.

(** The four log functions.  An event [Log s msg] records that the
    function was called with the text [msg]; what [echo -e] makes of
    that text on the terminal and in the log file (the coloured tag,
    backslash escapes in it) is not part of the event. *)
Definition log_info (msg : string) : Sh unit := ([Log INFO msg], Ret tt).
Definition log_success (msg : string) : Sh unit := ([Log SUCCESS msg], Ret tt).
Definition log_warning (msg : string) : Sh unit := ([Log WARNING msg], Ret tt).
Definition log_error (msg : string) : Sh unit := ([Log ERROR msg], Ret tt).

Definition exit1 {A} : Sh A := ([], Abort ExitOne).

(** A command used as the condition of an [if]: its status is tested. *)
Definition test (c : call) (ok : bool) : Sh bool := ([Call c], Ret ok).

(** A command in statement position: under [set -e] a failure ends
    the script. *)
Definition must (c : call) (ok : bool) : Sh unit :=
  ([Call c], if ok then Ret tt else Abort ErrExit).

(** [x=$(c | filters)]: the output when the pipeline succeeds, the end
    of the script when it fails. *)
Definition capture {A} (c : call) (out : option A) : Sh A :=
  ([Call c], match out with Some a => Ret a | None => Abort ErrExit end).

(** Expansion of a [local] variable that a [case] may have left
    unassigned. *)
Definition expand {A} (v : option A) : Sh A :=
  ([], match v with Some a => Ret a | None => Abort Unbound end).

(** ** Configuration: the global variables set by the option parser *)

Record config := {
  MODEL_TYPE : string;
  NAMESPACE : string;
  ENVIRONMENT : string;
  DRY_RUN : bool;      (* "true" / "false" in the script *)
  VERBOSE : bool;
  TIMEOUT : string
}.

Definition defaults : config := {|
  MODEL_TYPE := "llama-7b";
  NAMESPACE := "ai-models";
  ENVIRONMENT := "staging";
  DRY_RUN := false;
  VERBOSE := false;
  TIMEOUT := "600"
|}.

(** ** The world: what the surroundings answer *)

Record world := {
  PROJECT_DIR : string;
  LOG_FILE : string;
  file_exists : string -> bool;                     (* [[ -f PATH ]] *)
  command_v : string -> bool;
  oc_whoami : bool;
  (* oc get nodes ... | wc -l *)
  get_nodes : option nat;
  (* oc describe nodes ... | grep ... | awk '{sum+=$2} END {print sum}':
     the printed sum, [Some None] when awk printed an empty line, [None]
     when the pipeline failed; [available_gpus] below computes this
     outcome from the text that oc prints *)
  describe_gpus : option (option Z);
  (* oc get storageclass --no-headers | wc -l *)
  get_storageclass : option nat;
  get_namespace : string -> bool;
  create_namespace : string -> bool;
  apply : string -> string -> bool;
  helm : list string -> bool;
  rollout_status : string -> string -> string -> bool;
  logs : string -> string -> nat -> bool;
  get_service : string -> string -> bool;
  (* oc get endpoints ... -o json | jq '.subsets[0].addresses | length' *)
  get_endpoints : string -> string -> option (option Z);
  get_route : string -> string -> bool;
  get_route_host : string -> string -> option string;
  curl : string -> bool
}.

(** [${x:-0}] *)
Definition default0 (x : option Z) : Z :=
  match x with Some n => n | None => 0%Z end.

Definition show_nat (n : nat) : string := NilEmpty.string_of_uint (Nat.to_uint n).
Definition show_Z (z : Z) : string := NilZero.string_of_int (Z.to_int z).
Definition show_out (x : option Z) : string :=
  match x with Some n => show_Z n | None => "" end.

(** ** Option parsing (the [while [[ $# -gt 0 ]]] loop) *)

Fixpoint parse_args (args : list string) (c : config) : Sh config :=
  match args with
  | [] => ret c
  | a :: rest =>
      if (a =? "-m") || (a =? "--model-type") then
        match rest with
        | v :: rest' =>
            parse_args rest'
              {| MODEL_TYPE := v; NAMESPACE := NAMESPACE c; ENVIRONMENT := ENVIRONMENT c;
                 DRY_RUN := DRY_RUN c; VERBOSE := VERBOSE c; TIMEOUT := TIMEOUT c |}
        | [] => ([], Abort Unbound)
        end
      else if (a =? "-n") || (a =? "--namespace") then
        match rest with
        | v :: rest' =>
            parse_args rest'
              {| MODEL_TYPE := MODEL_TYPE c; NAMESPACE := v; ENVIRONMENT := ENVIRONMENT c;
                 DRY_RUN := DRY_RUN c; VERBOSE := VERBOSE c; TIMEOUT := TIMEOUT c |}
        | [] => ([], Abort Unbound)
        end
      else if (a =? "-e") || (a =? "--environment") then
        match rest with
        | v :: rest' =>
            parse_args rest'
              {| MODEL_TYPE := MODEL_TYPE c; NAMESPACE := NAMESPACE c; ENVIRONMENT := v;
                 DRY_RUN := DRY_RUN c; VERBOSE := VERBOSE c; TIMEOUT := TIMEOUT c |}
        | [] => ([], Abort Unbound)
        end
      else if (a =? "-d") || (a =? "--dry-run") then
        parse_args rest
          {| MODEL_TYPE := MODEL_TYPE c; NAMESPACE := NAMESPACE c; ENVIRONMENT := ENVIRONMENT c;
             DRY_RUN := true; VERBOSE := VERBOSE c; TIMEOUT := TIMEOUT c |}
      else if (a =? "-v") || (a =? "--verbose") then
        parse_args rest
          {| MODEL_TYPE := MODEL_TYPE c; NAMESPACE := NAMESPACE c; ENVIRONMENT := ENVIRONMENT c;
             DRY_RUN := DRY_RUN c; VERBOSE := true; TIMEOUT := TIMEOUT c |}
      else if (a =? "-t") || (a =? "--timeout") then
        match rest with
        | v :: rest' =>
            parse_args rest'
              {| MODEL_TYPE := MODEL_TYPE c; NAMESPACE := NAMESPACE c; ENVIRONMENT := ENVIRONMENT c;
                 DRY_RUN := DRY_RUN c; VERBOSE := VERBOSE c; TIMEOUT := v |}
        | [] => ([], Abort Unbound)
        end
      else if (a =? "-h") || (a =? "--help") then
        ([Usage], Abort ExitOne)
      else
        ([Log ERROR ("Unknown option: " ++ a); Usage], Abort ExitOne)
  end.

(** ** String tests used by the script *)

(** [[[ $s =~ "pat" ]]] with a quoted right-hand side: [pat] occurs
    somewhere in [s], taken literally. *)
Fixpoint contains (pat s : string) : bool :=
  String.prefix pat s ||
  match s with
  | EmptyString => false
  | String _ s' => contains pat s'
  end.

(** The [case] pattern ["llama-"*]. *)
Definition glob_llama (m : string) : bool := String.prefix "llama-" m.

(** ** check_prerequisites *)

Definition required_tools : list string := ["oc"; "kubectl"; "helm"; "jq"].

Definition valid_models : list string :=
  ["llama-7b"; "llama-13b"; "llama-70b"; "stable-diffusion"; "code-llama"].

(** [[[ " ${valid_models[@]} " =~ " ${MODEL_TYPE} " ]]] *)
Definition model_type_ok (m : string) : bool :=
  contains (" " ++ m ++ " ") (" " ++ String.concat " " valid_models ++ " ").

(** The [for tool in "${required_tools[@]}"] loop. *)
Fixpoint check_tools (w : world) (tools : list string) : Sh unit :=
  match tools with
  | [] => ret tt
  | tool :: tools' =>
      found <- test (CommandV tool) (command_v w tool) ;;
      if found then check_tools w tools'
      else
        log_error (tool ++ " is not installed or not in PATH") ;;
        exit1
  end.

Definition check_prerequisites (c : config) (w : world) : Sh unit :=
  log_info "Checking prerequisites..." ;;
  check_tools w required_tools ;;
  logged_in <- test OcWhoami (oc_whoami w) ;;
  (if logged_in then ret tt
   else
     log_error "Not logged in to OpenShift cluster" ;;
     log_info "Please run: oc login <server-url>" ;;
     exit1) ;;
  (if model_type_ok (MODEL_TYPE c) then ret tt
   else
     log_error ("Invalid model type: " ++ MODEL_TYPE c) ;;
     log_info ("Valid models: " ++ String.concat " " valid_models) ;;
     exit1) ;;
  log_success "Prerequisites check passed".

(** ** check_resources *)

Definition check_resources (c : config) (w : world) : Sh unit :=
  log_info "Checking cluster resources..." ;;
  gpu_nodes <- capture OcGetNodes (get_nodes w) ;;
  (if Nat.eqb gpu_nodes 0 then
     log_error "No GPU nodes available in cluster" ;;
     exit1
   else ret tt) ;;
  log_info ("Found " ++ show_nat gpu_nodes ++ " GPU nodes") ;;
  available_gpus <- capture OcDescribeNodes (describe_gpus w) ;;
  (if Z.eqb (default0 available_gpus) 0 then
     log_warning "No GPUs currently available"
   else
     log_info ("Available GPUs: " ++ show_out available_gpus)) ;;
  storage_classes <- capture OcGetStorageclass (get_storageclass w) ;;
  (if Nat.eqb storage_classes 0 then
     log_error "No storage classes available" ;;
     exit1
   else ret tt) ;;
  log_success "Resource check completed".

(** ** setup_namespace *)

Definition rbac_dir (w : world) : string :=
  PROJECT_DIR w ++ "/deployments/openshift/rbac/".

Definition setup_namespace (c : config) (w : world) : Sh unit :=
  let ns := NAMESPACE c in
  log_info ("Setting up namespace: " ++ ns) ;;
  present <- test (OcGetNamespace ns) (get_namespace w ns) ;;
  (if present then
     log_info ("Namespace " ++ ns ++ " already exists")
   else if DRY_RUN c then
     log_info ("[DRY RUN] Would create namespace: " ++ ns)
   else
     must (OcCreateNamespace ns) (create_namespace w ns) ;;
     log_success ("Created namespace: " ++ ns)) ;;
  log_info "Configuring RBAC..." ;;
  if DRY_RUN c then
    log_info "[DRY RUN] Would apply RBAC configurations"
  else
    must (OcApply (rbac_dir w) ns) (apply w (rbac_dir w) ns) ;;
    log_success "RBAC configured".

(** ** deploy_model *)

Definition chart_dir (w : world) : string :=
  PROJECT_DIR w ++ "/deployments/helm/ai-models/".

Definition env_values_file (c : config) (w : world) : string :=
  chart_dir w ++ "values-" ++ ENVIRONMENT c ++ ".yaml".

Definition default_values_file (w : world) : string :=
  chart_dir w ++ "values.yaml".

(** The [if [[ ! -f "$values_file" ]]] block: the file handed to helm
    and whether the warning is issued. *)
Definition values_file (c : config) (w : world) : string :=
  if file_exists w (env_values_file c w) then env_values_file c w
  else default_values_file w.

Definition helm_release (c : config) : string :=
  MODEL_TYPE c ++ "-" ++ ENVIRONMENT c.

Definition base_args (c : config) (w : world) : list string :=
  ["upgrade"; "--install"; helm_release c;
   chart_dir w;
   "--namespace"; NAMESPACE c;
   "--values"; values_file c w;
   "--timeout"; TIMEOUT c ++ "s";
   "--wait"].

(** The [case "$MODEL_TYPE"] block of deploy_model: the arguments it
    appends. *)
Definition model_args (m : string) : list string :=
  if m =? "llama-7b" then
    ["--set"; "llama.enabled=true";
     "--set"; "llama.model.size=7b";
     "--set"; "stableDiffusion.enabled=false"]
  else if m =? "llama-13b" then
    ["--set"; "llama.enabled=true";
     "--set"; "llama.model.size=13b";
     "--set"; "stableDiffusion.enabled=false"]
  else if m =? "llama-70b" then
    ["--set"; "llama.enabled=true";
     "--set"; "llama.model.size=70b";
     "--set"; "stableDiffusion.enabled=false";
     "--set"; "llama.resources.requests.memory=128Gi";
     "--set"; "llama.resources.requests.nvidia\.com/gpu=4"]
  else if m =? "stable-diffusion" then
    ["--set"; "llama.enabled=false";
     "--set"; "stableDiffusion.enabled=true"]
  else if m =? "code-llama" then
    ["--set"; "llama.enabled=true";
     "--set"; "llama.model.size=7b";
     "--set"; "llama.model.variant=code";
     "--set"; "stableDiffusion.enabled=false"]
  else [].

(** [helm_args] as it stands after the [case]. *)
Definition spec_args (c : config) (w : world) : list string :=
  (base_args c w ++ model_args (MODEL_TYPE c))%list.

(** [helm_args] as it stands when helm is run. *)
Definition helm_args (c : config) (w : world) : list string :=
  (spec_args c w
   ++ (if DRY_RUN c then ["--dry-run"] else [])
   ++ (if VERBOSE c then ["--debug"] else []))%list.

Definition deploy_model (c : config) (w : world) : Sh unit :=
  log_info ("Deploying model: " ++ MODEL_TYPE c) ;;
  (if file_exists w (env_values_file c w) then ret tt
   else
     log_warning ("Environment-specific values file not found: " ++ env_values_file c w)) ;;
  (if DRY_RUN c then
     log_info "[DRY RUN] Helm deployment command:" ;;
     log_info ("helm " ++ String.concat " " (spec_args c w ++ ["--dry-run"])%list)
   else ret tt) ;;
  deployed <- test (Helm (helm_args c w)) (helm w (helm_args c w)) ;;
  if deployed then log_success "Model deployment completed"
  else
    log_error "Model deployment failed" ;;
    exit1.

(** ** monitor_deployment *)

(** The [case "$MODEL_TYPE"] block of monitor_deployment; [None] when
    no pattern matches and [deployment_name] stays unassigned. *)
Definition deployment_name (m : string) : option string :=
  if glob_llama m then Some "llama-7b-inference"
  else if m =? "stable-diffusion" then Some "stable-diffusion-xl"
  else if m =? "code-llama" then Some "llama-7b-inference"
  else None.

Definition log_tail : nat := 50.

Definition monitor_deployment (c : config) (w : world) : Sh unit :=
  if DRY_RUN c then
    log_info "[DRY RUN] Skipping deployment monitoring"
  else
    let ns := NAMESPACE c in
    let timeout := TIMEOUT c ++ "s" in
    log_info "Monitoring deployment progress..." ;;
    name <- expand (deployment_name (MODEL_TYPE c)) ;;
    log_info ("Waiting for deployment " ++ name ++ " to be ready...") ;;
    ready <- test (OcRolloutStatus name ns timeout) (rollout_status w name ns timeout) ;;
    (if ready then
       log_success ("Deployment " ++ name ++ " is ready")
     else
       log_error ("Deployment " ++ name ++ " failed to become ready within timeout") ;;
       log_info "Showing pod logs for debugging:" ;;
       must (OcLogs name ns log_tail) (logs w name ns log_tail) ;;
       exit1) ;;
    log_info "Verifying service endpoints..." ;;
    let service_name := name ++ "-service" in
    found <- test (OcGetService service_name ns) (get_service w service_name ns) ;;
    if found then
      endpoint_count <- capture (OcGetEndpoints service_name ns)
                                (get_endpoints w service_name ns) ;;
      if Z.ltb 0 (default0 endpoint_count) then
        log_success ("Service endpoints are healthy (" ++ show_out endpoint_count ++ " endpoints)")
      else
        log_warning ("No healthy endpoints found for service " ++ service_name)
    else
      log_warning ("Service " ++ service_name ++ " not found").

(** ** health_check *)

(** The [case "$MODEL_TYPE"] block of health_check. *)
Definition route_name (m : string) : option string :=
  if glob_llama m || (m =? "code-llama") then Some "llama-7b-route"
  else if m =? "stable-diffusion" then Some "stable-diffusion-route"
  else None.

Definition health_url (host : string) : string := "https://" ++ host ++ "/health".

Definition health_check (c : config) (w : world) : Sh unit :=
  if DRY_RUN c then
    log_info "[DRY RUN] Skipping health checks"
  else
    let ns := NAMESPACE c in
    log_info "Running health checks..." ;;
    route <- expand (route_name (MODEL_TYPE c)) ;;
    found <- test (OcGetRoute route ns) (get_route w route ns) ;;
    if found then
      route_host <- capture (OcGetRouteHost route ns) (get_route_host w route ns) ;;
      log_info ("Testing health endpoint: " ++ health_url route_host) ;;
      healthy <- test (Curl (health_url route_host)) (curl w (health_url route_host)) ;;
      if healthy then log_success "Health check passed"
      else
        log_error "Health check failed" ;;
        exit1
    else
      log_warning ("Route " ++ route ++ " not found, skipping external health check").

(** ** main *)

Definition show_bool (b : bool) : string := if b then "true" else "false".

(** The lines main writes before the first stage. *)
Definition banner (c : config) : Sh unit :=
  log_info "Starting AI model deployment" ;;
  log_info ("Model: " ++ MODEL_TYPE c ++ ", Environment: " ++ ENVIRONMENT c
            ++ ", Namespace: " ++ NAMESPACE c) ;;
  log_info ("Dry run: " ++ show_bool (DRY_RUN c) ++ ", Verbose: " ++ show_bool (VERBOSE c)).

(** The body of main, without the exit trap. *)
Definition stages (c : config) (w : world) : Sh unit :=
  banner c ;;
  check_prerequisites c w ;;
  check_resources c w ;;
  setup_namespace c w ;;
  deploy_model c w ;;
  monitor_deployment c w ;;
  health_check c w ;;
  log_success "Deployment completed successfully!".

(** [cleanup], run by [trap cleanup EXIT] however main ends.  The log
    file exists by then: main has written to it. *)
Definition cleanup (w : world) : list event :=
  [Log INFO ("Deployment log saved to: " ++ LOG_FILE w)].

Definition main (c : config) (w : world) : Sh unit :=
  let '(t, r) := stages c w in ((t ++ cleanup w)%list, r).

(** The whole script: option parsing, then main. *)
Definition script (args : list string) (w : world) : Sh unit :=
  c <- parse_args args defaults ;;
  main c w.

(** The exit status is zero exactly when the script ran to its end. *)
Definition exit_zero {A} (r : res A) : bool :=
  match r with Ret _ => true | Abort _ => false end.

(** * Vocabulary of the statements *)

(** ** Reading a trace *)

Definition calls (t : list event) : list call :=
  flat_map (fun e => match e with Call c => [c] | _ => [] end) t.

Definition logged (s : severity) (t : list event) : list string :=
  flat_map (fun e => match e with
                     | Log s' msg =>
                         match s, s' with
                         | INFO, INFO | SUCCESS, SUCCESS
                         | WARNING, WARNING | ERROR, ERROR => [msg]
                         | _, _ => []
                         end
                     | _ => []
                     end) t.

(** Every call among the events satisfies [P]. *)
Definition only (P : call -> bool) (e : event) : Prop :=
  match e with
  | Call k => P k = true
  | _ => True
  end.

(** ** Classifying calls *)

(** Calls that change the cluster: creating a namespace, applying the
    access policy, and a helm upgrade that is not a simulation. *)
Definition mutating (c : call) : bool :=
  match c with
  | OcCreateNamespace _ => true
  | OcApply _ _ => true
  | Helm args => negb (existsb (String.eqb "--dry-run") args)
  | _ => false
  end.

(** An event that leaves the cluster as it is. *)
Definition harmless : event -> Prop := only (fun k => negb (mutating k)).

(** Every call except the look-up of a tool on the PATH reaches the
    cluster: [oc] talks to its API server, [helm] installs into it,
    [curl] requests the route it serves. *)
Definition cluster_call (c : call) : bool :=
  match c with
  | CommandV _ => false
  | _ => true
  end.

(** Calls issued by check_prerequisites. *)
Definition prereq_call (c : call) : bool :=
  match c with
  | CommandV _ | OcWhoami => true
  | _ => false
  end.

(** Calls issued by check_resources. *)
Definition audit_call (c : call) : bool :=
  match c with
  | OcGetNodes | OcDescribeNodes | OcGetStorageclass => true
  | _ => false
  end.

(** Calls of the two validation stages: everything else belongs to
    setup_namespace or a later stage. *)
Definition before_namespace (c : call) : bool := prereq_call c || audit_call c.

(** Calls issued by health_check. *)
Definition health_call (c : call) : bool :=
  match c with
  | OcGetRoute _ _ | OcGetRouteHost _ _ | Curl _ => true
  | _ => false
  end.

Definition not_health (c : call) : bool := negb (health_call c).

(** ** Parts of main *)

(** The two validation stages, as main chains them. *)
Definition validation (c : config) (w : world) : Sh unit :=
  check_prerequisites c w ;;
  check_resources c w.

(** What main does once validation has passed. *)
Definition deployment (c : config) (w : world) : Sh unit :=
  setup_namespace c w ;;
  deploy_model c w ;;
  monitor_deployment c w ;;
  health_check c w ;;
  log_success "Deployment completed successfully!".

(** ** Texts the script logs and arguments it passes *)

Definition not_installed (tool : string) : string :=
  tool ++ " is not installed or not in PATH".

Definition invalid_model_type (m : string) : string := "Invalid model type: " ++ m.

Definition values_not_found (path : string) : string :=
  "Environment-specific values file not found: " ++ path.

Definition not_ready (name : string) : string :=
  "Deployment " ++ name ++ " failed to become ready within timeout".

Definition route_not_found (route : string) : string :=
  "Route " ++ route ++ " not found, skipping external health check".

Definition memory_override : string := "llama.resources.requests.memory=128Gi".
Definition gpu_override : string := "llama.resources.requests.nvidia\.com/gpu=4".
Definition variant_flag : string := "llama.model.variant=code".

(** ** Words of a space-separated string *)

Definition is_space (a : ascii) : bool := Ascii.eqb a " "%char.

Fixpoint no_space (s : string) : bool :=
  match s with
  | EmptyString => true
  | String a s' => negb (is_space a) && no_space s'
  end.

(** The characters of [s] up to its first space, when it has one. *)
Fixpoint first_word (s : string) : option string :=
  match s with
  | EmptyString => None
  | String a s' =>
      if is_space a then Some EmptyString
      else option_map (String a) (first_word s')
  end.

(** The words of [s] that stand between two spaces. *)
Fixpoint spaced_words (s : string) : list string :=
  match s with
  | EmptyString => []
  | String a s' =>
      (if is_space a then
         match first_word s' with Some t => [t] | None => [] end
       else []) ++ spaced_words s'
  end%list.

(** ** Invocations *)

Definition invoke (model env : string) (dry : bool) (timeout : string) : config := {|
  MODEL_TYPE := model;
  NAMESPACE := "ai-models";
  ENVIRONMENT := env;
  DRY_RUN := dry;
  VERBOSE := false;
  TIMEOUT := timeout
|}.

Definition with_dry_run (b : bool) (c : config) : config := {|
  MODEL_TYPE := MODEL_TYPE c;
  NAMESPACE := NAMESPACE c;
  ENVIRONMENT := ENVIRONMENT c;
  DRY_RUN := b;
  VERBOSE := VERBOSE c;
  TIMEOUT := TIMEOUT c
|}.

Definition with_timeout (t : string) (c : config) : config := {|
  MODEL_TYPE := MODEL_TYPE c;
  NAMESPACE := NAMESPACE c;
  ENVIRONMENT := ENVIRONMENT c;
  DRY_RUN := DRY_RUN c;
  VERBOSE := VERBOSE c;
  TIMEOUT := t
|}.

(** ** Concrete worlds *)

(** A cluster described by the answers that matter to the pipeline:
    which tools are installed, whether a session is open, the three
    capacity answers, which files exist, and whether the rollout, the
    route and the health probe succeed.  The namespace does not exist
    yet and every other command succeeds. *)
Definition cluster (tools : string -> bool) (session : bool)
    (nodes : option nat) (gpus : option (option Z)) (storage : option nat)
    (files : string -> bool) (rollout route probe : bool) : world := {|
  PROJECT_DIR := "/opt/mlops";
  LOG_FILE := "/tmp/model-deployment-20240101-120000.log";
  file_exists := files;
  command_v := tools;
  oc_whoami := session;
  get_nodes := nodes;
  describe_gpus := gpus;
  get_storageclass := storage;
  get_namespace := fun _ => false;
  create_namespace := fun _ => true;
  apply := fun _ _ => true;
  helm := fun _ => true;
  rollout_status := fun _ _ _ => rollout;
  logs := fun _ _ _ => true;
  get_service := fun _ _ => true;
  get_endpoints := fun _ _ => Some (Some 1%Z);
  get_route := fun _ _ => route;
  get_route_host := fun _ _ => Some "models.apps.example.com";
  curl := fun _ => probe
|}.

Definition all_tools (_ : string) : bool := true.
Definition all_files (_ : string) : bool := true.
Definition no_files (_ : string) : bool := false.

(** Three accelerator nodes with two allocatable units, one storage
    class, everything reachable. *)
Definition healthy : world :=
  cluster all_tools true (Some 3) (Some (Some 2%Z)) (Some 1) all_files true true true.

(** A machine on which [jq] is not installed, and one on which
    neither [kubectl] nor [jq] is. *)
Definition without_jq : world :=
  cluster (fun tool => negb (tool =? "jq")) true (Some 3) (Some (Some 2%Z)) (Some 1)
          all_files true true true.
Definition without_kubectl_jq : world :=
  cluster (fun tool => negb ((tool =? "kubectl") || (tool =? "jq"))) true
          (Some 3) (Some (Some 2%Z)) (Some 1) all_files true true true.

(** A cluster without accelerator nodes, one without a storage class,
    and one whose accelerators are all taken. *)
Definition no_nodes : world :=
  cluster all_tools true (Some 0) (Some None) (Some 1) all_files true true true.
Definition no_storage : world :=
  cluster all_tools true (Some 3) (Some (Some 2%Z)) (Some 0) all_files true true true.
Definition saturated : world :=
  cluster all_tools true (Some 3) (Some (Some 0%Z)) (Some 1) all_files true true true.

(** A checkout that has no values file for the requested environment. *)
Definition without_env_values : world :=
  cluster all_tools true (Some 3) (Some (Some 2%Z)) (Some 1) no_files true true true.

(** A rollout that does not become ready in time, a cluster without
    the route, and a route whose health probe fails. *)
Definition never_ready : world :=
  cluster all_tools true (Some 3) (Some (Some 2%Z)) (Some 1) all_files false true true.
Definition without_route : world :=
  cluster all_tools true (Some 3) (Some (Some 2%Z)) (Some 1) all_files true false true.
Definition unhealthy : world :=
  cluster all_tools true (Some 3) (Some (Some 2%Z)) (Some 1) all_files true true false.

(** * Vocabulary of the further properties *)

(** ** Option parsing *)

Functional Scheme parse_args_ind := Induction for parse_args Sort Prop.

Definition unknown_option (a : string) : string := "Unknown option: " ++ a.

Definition with_model_type (m : string) (c : config) : config := {|
  MODEL_TYPE := m;
  NAMESPACE := NAMESPACE c;
  ENVIRONMENT := ENVIRONMENT c;
  DRY_RUN := DRY_RUN c;
  VERBOSE := VERBOSE c;
  TIMEOUT := TIMEOUT c
|}.

(** ** The values the model type test accepts *)

(** The beginnings of [s] that are followed by a space. *)
Fixpoint spaced_prefixes (s : string) : list string :=
  match s with
  | EmptyString => []
  | String a s' =>
      (if is_space a then [EmptyString] else []) ++ map (String a) (spaced_prefixes s')
  end%list.

(** The pieces of [s] that stand between two of its spaces. *)
Fixpoint spaced_runs (s : string) : list string :=
  match s with
  | EmptyString => []
  | String a s' =>
      (if is_space a then spaced_prefixes s' else []) ++ spaced_runs s'
  end%list.

(** One or more valid names in the order of the list, separated by
    single spaces. *)
Definition accepted_model_types : list string :=
  ["llama-7b";
   "llama-7b llama-13b";
   "llama-7b llama-13b llama-70b";
   "llama-7b llama-13b llama-70b stable-diffusion";
   "llama-7b llama-13b llama-70b stable-diffusion code-llama";
   "llama-13b";
   "llama-13b llama-70b";
   "llama-13b llama-70b stable-diffusion";
   "llama-13b llama-70b stable-diffusion code-llama";
   "llama-70b";
   "llama-70b stable-diffusion";
   "llama-70b stable-diffusion code-llama";
   "stable-diffusion";
   "stable-diffusion code-llama";
   "code-llama"].

(** ** Names used by the later stages *)

Definition service_name (name : string) : string := name ++ "-service".

Definition service_not_found (svc : string) : string := "Service " ++ svc ++ " not found".

Definition no_healthy_endpoints (svc : string) : string :=
  "No healthy endpoints found for service " ++ svc.

(** A cluster in which the namespace exists already, and one in which
    the service of the workload has no endpoints. *)
Definition with_namespace (w : world) : world := {|
  PROJECT_DIR := PROJECT_DIR w;
  LOG_FILE := LOG_FILE w;
  file_exists := file_exists w;
  command_v := command_v w;
  oc_whoami := oc_whoami w;
  get_nodes := get_nodes w;
  describe_gpus := describe_gpus w;
  get_storageclass := get_storageclass w;
  get_namespace := fun _ => true;
  create_namespace := create_namespace w;
  apply := apply w;
  helm := helm w;
  rollout_status := rollout_status w;
  logs := logs w;
  get_service := get_service w;
  get_endpoints := get_endpoints w;
  get_route := get_route w;
  get_route_host := get_route_host w;
  curl := curl w
|}.

Definition without_endpoints (w : world) : world := {|
  PROJECT_DIR := PROJECT_DIR w;
  LOG_FILE := LOG_FILE w;
  file_exists := file_exists w;
  command_v := command_v w;
  oc_whoami := oc_whoami w;
  get_nodes := get_nodes w;
  describe_gpus := describe_gpus w;
  get_storageclass := get_storageclass w;
  get_namespace := get_namespace w;
  create_namespace := create_namespace w;
  apply := apply w;
  helm := helm w;
  rollout_status := rollout_status w;
  logs := logs w;
  get_service := get_service w;
  get_endpoints := fun _ _ => Some (Some 0%Z);
  get_route := get_route w;
  get_route_host := get_route_host w;
  curl := curl w
|}.

(** ** The stages as a list *)

(** Run the computations of a list one after the other, stopping at
    the first that does not return. *)
Definition seq_all (l : list (Sh unit)) : Sh unit :=
  fold_right (fun s k => s ;; k) (ret tt) l.

(** The six stages in the order main calls them. *)
Definition pipeline (c : config) (w : world) : list (Sh unit) :=
  [check_prerequisites c w; check_resources c w; setup_namespace c w;
   deploy_model c w; monitor_deployment c w; health_check c w].

Definition returns (s : Sh unit) : Prop := result s = Ret tt.

Definition success_line : string := "Deployment completed successfully!".

(** An event other than the final success line. *)
Definition unfinished (e : event) : Prop :=
  match e with
  | Log SUCCESS msg => (msg =? "Deployment completed successfully!") = false
  | _ => True
  end.

(** ** Error lines *)

(** How a computation logs errors: none when it returns, exactly one
    when it ends by [exit 1], at most one when it ends otherwise. *)
Definition disciplined {A} (m : Sh A) : Prop :=
  match result m with
  | Ret _ => logged ERROR (trace m) = []
  | Abort ExitOne => length (logged ERROR (trace m)) = 1
  | Abort _ => length (logged ERROR (trace m)) <= 1
  end.

(** A cluster on which the creation of the namespace is refused. *)
Definition create_refused (w : world) : world := {|
  PROJECT_DIR := PROJECT_DIR w;
  LOG_FILE := LOG_FILE w;
  file_exists := file_exists w;
  command_v := command_v w;
  oc_whoami := oc_whoami w;
  get_nodes := get_nodes w;
  describe_gpus := describe_gpus w;
  get_storageclass := get_storageclass w;
  get_namespace := get_namespace w;
  create_namespace := fun _ => false;
  apply := apply w;
  helm := helm w;
  rollout_status := rollout_status w;
  logs := logs w;
  get_service := get_service w;
  get_endpoints := get_endpoints w;
  get_route := get_route w;
  get_route_host := get_route_host w;
  curl := curl w
|}.

(** ** The order of the external commands *)

(** The place of a command in the text of the script, from the tool
    look-ups of check_prerequisites to the request of health_check. *)
Definition call_rank (k : call) : nat :=
  match k with
  | CommandV tool =>
      if tool =? "oc" then 0
      else if tool =? "kubectl" then 1
      else if tool =? "helm" then 2
      else 3
  | OcWhoami => 4
  | OcGetNodes => 5
  | OcDescribeNodes => 6
  | OcGetStorageclass => 7
  | OcGetNamespace _ => 8
  | OcCreateNamespace _ => 9
  | OcApply _ _ => 10
  | Helm _ => 11
  | OcRolloutStatus _ _ _ => 12
  | OcLogs _ _ _ => 13
  | OcGetService _ _ => 14
  | OcGetEndpoints _ _ => 15
  | OcGetRoute _ _ => 16
  | OcGetRouteHost _ _ => 17
  | Curl _ => 18
  end.

Definition earlier (a b : call) : Prop := call_rank a < call_rank b.

(** [climb lo ks]: the ranks of [ks] increase strictly, starting at
    [lo] or above; the result is the first rank still free. *)
Fixpoint climb (lo : nat) (ks : list call) : option nat :=
  match ks with
  | [] => Some lo
  | k :: ks' => if Nat.leb lo (call_rank k) then climb (S (call_rank k)) ks' else None
  end.

(** The calls of [m] climb from [lo] and stay below [hi]. *)
Definition spans {A} (lo hi : nat) (m : Sh A) : Prop :=
  exists top, climb lo (calls (trace m)) = Some top /\ top <= hi.

(** ** Readings that are only reported *)



(** The line with which a dry run announces the helm command. *)
Definition helm_command_line (args : list string) : string :=
  "helm " ++ String.concat " " args.

(** ** The accelerator pipeline of check_resources

    [available_gpus=$(oc describe nodes -l accelerator=h100
       | grep "nvidia.com/gpu"
       | grep -E "Allocatable|Allocated resources" -A1
       | grep nvidia.com/gpu
       | awk '{sum+=$2} END {print sum}')]

    The world field [describe_gpus] is the outcome of this
    assignment.  [available_gpus] computes that outcome from the
    lines [oc describe] prints: under [pipefail] the assignment fails
    when [oc] fails or when one of the three [grep]s selects no line. *)

(** One position of a basic regular expression without repetition:
    a literal character, or [.], which stands for any character. *)
Inductive atom :=
| Lit (a : ascii)
| Any.

Fixpoint matches_here (pat : list atom) (s : string) : bool :=
  match pat with
  | [] => true
  | p :: pat' =>
      match s with
      | EmptyString => false
      | String a s' =>
          match p with Lit b => Ascii.eqb a b | Any => true end
          && matches_here pat' s'
      end
  end.

(** The pattern occurs somewhere in the line. *)
Fixpoint matches (pat : list atom) (s : string) : bool :=
  matches_here pat s ||
  match s with
  | EmptyString => false
  | String _ s' => matches pat s'
  end.

(** [nvidia.com/gpu] as grep reads it: the dot is a wild card. *)
Definition gpu_pattern : list atom :=
  [Lit "n"; Lit "v"; Lit "i"; Lit "d"; Lit "i"; Lit "a"; Any;
   Lit "c"; Lit "o"; Lit "m"; Lit "/"; Lit "g"; Lit "p"; Lit "u"]%char.

Definition gpu_line (line : string) : bool := matches gpu_pattern line.

(** [Allocatable|Allocated resources] as grep -E reads it. *)
Definition allocation_line (line : string) : bool :=
  contains "Allocatable" line || contains "Allocated resources" line.

(** [grep PATTERN]: the selected lines; its status is zero when there
    is one. *)
Definition grep (select : string -> bool) (lines : list string) : list string :=
  filter select lines.

Definition selects (select : string -> bool) (lines : list string) : bool :=
  existsb select lines.

(** [grep PATTERN -A1]: each selected line and the line after it,
    with [--] between groups that are not adjacent.  [printed] tells
    whether anything was printed so far, [adjacent] whether the line
    before this one was printed, [context] how many lines of trailing
    context are still due. *)
Fixpoint grep_A1_from (select : string -> bool) (printed adjacent : bool) (context : nat)
    (lines : list string) : list string :=
  match lines with
  | [] => []
  | line :: rest =>
      if select line then
        ((if printed && negb adjacent then ["--"] else [])
         ++ line :: grep_A1_from select true true 1 rest)%list
      else
        match context with
        | S context' => line :: grep_A1_from select true true context' rest
        | O => grep_A1_from select printed false 0 rest
        end
  end.

Definition grep_A1 (select : string -> bool) (lines : list string) : list string :=
  grep_A1_from select false false 0 lines.

(** awk's fields: the pieces of a line between blanks. *)
Definition is_blank (a : ascii) : bool := Ascii.eqb a " " || Ascii.eqb a "009".

Fixpoint fields_from (word : string) (s : string) : list string :=
  match s with
  | EmptyString => if word =? "" then [] else [word]
  | String a s' =>
      if is_blank a then
        if word =? "" then fields_from "" s' else word :: fields_from "" s'
      else fields_from (word ++ String a "") s'
  end.

Definition fields (line : string) : list string := fields_from "" line.

Definition digit (a : ascii) : option Z :=
  let n := nat_of_ascii a in
  if Nat.leb 48 n && Nat.leb n 57 then Some (Z.of_nat (n - 48)) else None.

Fixpoint digits_value (acc : Z) (s : string) : Z :=
  match s with
  | EmptyString => acc
  | String a s' =>
      match digit a with
      | Some d => digits_value (10 * acc + d) s'
      | None => acc
      end
  end.

(** The number awk reads from a field: its longest numeric beginning,
    zero when it has none.  Whole numbers only are read here, which is
    what a count of devices is; awk itself would go on into a
    fraction or an exponent. *)
Definition awk_number (field : string) : Z :=
  match field with
  | String "-" rest => (- digits_value 0 rest)%Z
  | String "+" rest => digits_value 0 rest
  | _ => digits_value 0 field
  end.

(** [awk '{sum+=$2} END {print sum}']: the sum of the second fields,
    and an empty line when there was no input. *)
Definition awk_sum (lines : list string) : option Z :=
  match lines with
  | [] => None
  | _ =>
      Some (fold_left (fun sum line => (sum + awk_number (nth 1 (fields line) ""))%Z)
                      lines 0%Z)
  end.

(** The outcome of the assignment, from what [oc describe] prints
    ([None] when [oc] fails). *)
Definition available_gpus (describe : option (list string)) : option (option Z) :=
  match describe with
  | None => None
  | Some text =>
      let gpu1 := grep gpu_line text in
      let alloc := grep_A1 allocation_line gpu1 in
      let gpu2 := grep gpu_line alloc in
      if selects gpu_line text && selects allocation_line gpu1 && selects gpu_line alloc
      then Some (awk_sum gpu2)
      else None
  end.

(** What [oc describe nodes] prints for one node, as far as the
    pipeline can see it: the name and labels, the Capacity and
    Allocatable sections and the table of allocated resources. *)
Definition describe_node (name capacity allocatable requested : string) : list string :=
  ["Name:               " ++ name;
   "Roles:              worker";
   "Labels:             accelerator=h100";
   "                    nvidia.com/gpu.present=true";
   "Capacity:";
   "  cpu:                96";
   "  memory:             1056Gi";
   "  nvidia.com/gpu:     " ++ capacity;
   "Allocatable:";
   "  cpu:                95";
   "  memory:             1055Gi";
   "  nvidia.com/gpu:     " ++ allocatable;
   "Allocated resources:";
   "  (Total limits may be over 100 percent, i.e., overcommitted.)";
   "  Resource           Requests    Limits";
   "  --------           --------    ------";
   "  cpu                1 (1%)      2 (2%)";
   "  memory             1Gi (0%)    2Gi (0%)";
   "  nvidia.com/gpu     " ++ requested ++ "           " ++ requested;
   ""].

(** Three accelerator nodes, none with an accelerator to allocate. *)
Definition describe_unallocatable : list string :=
  (describe_node "gpu-worker-1" "8" "0" "0"
   ++ describe_node "gpu-worker-2" "8" "0" "0"
   ++ describe_node "gpu-worker-3" "8" "0" "0")%list.

Definition unallocatable : world :=
  cluster all_tools true (Some 3) (available_gpus (Some describe_unallocatable)) (Some 1)
          all_files true true true.

(** An event other than a warning line. *)
Definition no_warning (e : event) : Prop :=
  match e with
  | Log WARNING _ => False
  | _ => True
  end.

(** ** The options the parser knows *)

(** The patterns of the [case] in the option loop. *)
Definition takes_value (f : string) : bool :=
  (f =? "-m") || (f =? "--model-type") || (f =? "-n") || (f =? "--namespace")
  || (f =? "-e") || (f =? "--environment") || (f =? "-t") || (f =? "--timeout").

Definition is_switch (f : string) : bool :=
  (f =? "-d") || (f =? "--dry-run") || (f =? "-v") || (f =? "--verbose").

Definition is_help (f : string) : bool := (f =? "-h") || (f =? "--help").

Definition known (f : string) : bool := takes_value f || is_switch f || is_help f.

Definition with_name_space (n : string) (c : config) : config := {|
  MODEL_TYPE := MODEL_TYPE c;
  NAMESPACE := n;
  ENVIRONMENT := ENVIRONMENT c;
  DRY_RUN := DRY_RUN c;
  VERBOSE := VERBOSE c;
  TIMEOUT := TIMEOUT c
|}.

Definition with_environment (e : string) (c : config) : config := {|
  MODEL_TYPE := MODEL_TYPE c;
  NAMESPACE := NAMESPACE c;
  ENVIRONMENT := e;
  DRY_RUN := DRY_RUN c;
  VERBOSE := VERBOSE c;
  TIMEOUT := TIMEOUT c
|}.

Definition with_verbose (b : bool) (c : config) : config := {|
  MODEL_TYPE := MODEL_TYPE c;
  NAMESPACE := NAMESPACE c;
  ENVIRONMENT := ENVIRONMENT c;
  DRY_RUN := DRY_RUN c;
  VERBOSE := b;
  TIMEOUT := TIMEOUT c
|}.

(** What a flag with its value, and what a switch, does to the
    configuration. *)
Definition set_value (f v : string) (c : config) : config :=
  if (f =? "-m") || (f =? "--model-type") then with_model_type v c
  else if (f =? "-n") || (f =? "--namespace") then with_name_space v c
  else if (f =? "-e") || (f =? "--environment") then with_environment v c
  else with_timeout v c.

Definition set_switch (f : string) (c : config) : config :=
  if (f =? "-d") || (f =? "--dry-run") then with_dry_run true c
  else with_verbose true c.

(** [reads args c c']: [args] is a sequence of flags with their
    values and of switches, and reading them from left to right takes
    the configuration [c] to [c']. *)
Inductive reads : list string -> config -> config -> Prop :=
| reads_nil (c : config) : reads [] c c
| reads_value (f v : string) (rest : list string) (c c' : config) :
    takes_value f = true ->
    reads rest (set_value f v c) c' ->
    reads (f :: v :: rest) c c'
| reads_switch (f : string) (rest : list string) (c c' : config) :
    is_switch f = true ->
    reads rest (set_switch f c) c' ->
    reads (f :: rest) c c'.

(** How a run [r] of the option loop on [args] from [c] can have
    ended: at the end of a sequence of known options, or at the
    argument that follows such a sequence. *)
Definition parse_outcome (args : list string) (c : config) (r : Sh config) : Prop :=
  (exists c', r = ([], Ret c') /\ reads args c c') \/
  (r = ([], Abort Unbound) /\
   exists pre f c',
     args = (pre ++ [f])%list /\ reads pre c c' /\ takes_value f = true) \/
  (r = ([Usage], Abort ExitOne) /\
   exists pre h rest c',
     args = (pre ++ h :: rest)%list /\ reads pre c c' /\ is_help h = true) \/
  (exists a pre rest c',
     r = ([Log ERROR (unknown_option a); Usage], Abort ExitOne) /\
     args = (pre ++ a :: rest)%list /\ reads pre c c' /\ known a = false).

(** * Properties *)

(** ** Sanity runs *)

Example run_staging_llama :
  exit_zero (result (script ["-m"; "llama-7b"; "-e"; "staging"] healthy)) = true
  /\ calls (trace (script ["-m"; "llama-7b"; "-e"; "staging"] healthy)) =
     [CommandV "oc"; CommandV "kubectl"; CommandV "helm"; CommandV "jq"; OcWhoami;
      OcGetNodes; OcDescribeNodes; OcGetStorageclass;
      OcGetNamespace "ai-models"; OcCreateNamespace "ai-models";
      OcApply "/opt/mlops/deployments/openshift/rbac/" "ai-models";
      Helm ["upgrade"; "--install"; "llama-7b-staging";
            "/opt/mlops/deployments/helm/ai-models/";
            "--namespace"; "ai-models";
            "--values"; "/opt/mlops/deployments/helm/ai-models/values-staging.yaml";
            "--timeout"; "600s"; "--wait";
            "--set"; "llama.enabled=true";
            "--set"; "llama.model.size=7b";
            "--set"; "stableDiffusion.enabled=false"];
      OcRolloutStatus "llama-7b-inference" "ai-models" "600s";
      OcGetService "llama-7b-inference-service" "ai-models";
      OcGetEndpoints "llama-7b-inference-service" "ai-models";
      OcGetRoute "llama-7b-route" "ai-models";
      OcGetRouteHost "llama-7b-route" "ai-models";
      Curl "https://models.apps.example.com/health"].
Proof. split; reflexivity. Qed.

Example run_production_without_nodes :
  script ["-m"; "stable-diffusion"; "-e"; "production"] no_nodes =
  ([Log INFO "Starting AI model deployment";
    Log INFO "Model: stable-diffusion, Environment: production, Namespace: ai-models";
    Log INFO "Dry run: false, Verbose: false";
    Log INFO "Checking prerequisites...";
    Call (CommandV "oc"); Call (CommandV "kubectl");
    Call (CommandV "helm"); Call (CommandV "jq");
    Call OcWhoami;
    Log SUCCESS "Prerequisites check passed";
    Log INFO "Checking cluster resources...";
    Call OcGetNodes;
    Log ERROR "No GPU nodes available in cluster";
    Log INFO "Deployment log saved to: /tmp/model-deployment-20240101-120000.log"],
   Abort ExitOne).
Proof. reflexivity. Qed.

Example run_dry_llama_70b :
  exit_zero (result (script ["-m"; "llama-70b"; "-d"] healthy)) = true
  /\ calls (trace (script ["-m"; "llama-70b"; "-d"] healthy)) =
     [CommandV "oc"; CommandV "kubectl"; CommandV "helm"; CommandV "jq"; OcWhoami;
      OcGetNodes; OcDescribeNodes; OcGetStorageclass;
      OcGetNamespace "ai-models";
      Helm ["upgrade"; "--install"; "llama-70b-staging";
            "/opt/mlops/deployments/helm/ai-models/";
            "--namespace"; "ai-models";
            "--values"; "/opt/mlops/deployments/helm/ai-models/values-staging.yaml";
            "--timeout"; "600s"; "--wait";
            "--set"; "llama.enabled=true";
            "--set"; "llama.model.size=70b";
            "--set"; "stableDiffusion.enabled=false";
            "--set"; "llama.resources.requests.memory=128Gi";
            "--set"; "llama.resources.requests.nvidia\.com/gpu=4";
            "--dry-run"]].
Proof. split; reflexivity. Qed.

Example run_help :
  script ["--help"] healthy = ([Usage], Abort ExitOne).
Proof. reflexivity. Qed.

Example run_missing_value :
  script ["-d"; "-t"] healthy = ([], Abort Unbound).
Proof. reflexivity. Qed.

(** ** Laws of the shell monad *)

Lemma trace_pair {A} (t : list event) (r : res A) : trace (t, r) = t.
Proof. reflexivity. Qed.

Lemma result_pair {A} (t : list event) (r : res A) : result (t, r) = r.
Proof. reflexivity. Qed.

Lemma bind_ret {A B} (t : list event) (a : A) (f : A -> Sh B) :
  bind (t, Ret a) f = ((t ++ trace (f a))%list, result (f a)).
Proof. unfold bind, trace, result. destruct (f a); reflexivity. Qed.

Lemma bind_abort {A B} (t : list event) (r : abort) (f : A -> Sh B) :
  bind (t, Abort r) f = (t, Abort r).
Proof. reflexivity. Qed.

Lemma bind_returns {A B} (m : Sh A) (f : A -> Sh B) (a : A) :
  result m = Ret a ->
  bind m f = ((trace m ++ trace (f a))%list, result (f a)).
Proof. destruct m as [t r]; simpl; intros ->. apply bind_ret. Qed.

Lemma bind_aborts {A B} (m : Sh A) (f : A -> Sh B) (r : abort) :
  result m = Abort r ->
  bind m f = (trace m, Abort r).
Proof. destruct m as [t r']; simpl; intros ->. reflexivity. Qed.

Lemma surjective_Sh {A} (m : Sh A) : m = (trace m, result m).
Proof. destruct m; reflexivity. Qed.

(** A property of events that holds of [m] and of every continuation
    holds of the sequence. *)
Lemma Forall_bind {A B} (P : event -> Prop) (m : Sh A) (f : A -> Sh B) :
  Forall P (trace m) ->
  (forall a, result m = Ret a -> Forall P (trace (f a))) ->
  Forall P (trace (bind m f)).
Proof.
  destruct m as [t [a | r]]; intros Ht Hf.
  - rewrite bind_ret. apply Forall_app. split; [exact Ht | apply Hf; reflexivity].
  - exact Ht.
Qed.

Lemma main_trace (c : config) (w : world) :
  trace (main c w) = (trace (stages c w) ++ cleanup w)%list.
Proof. unfold main. destruct (stages c w); reflexivity. Qed.

Lemma main_result (c : config) (w : world) :
  result (main c w) = result (stages c w).
Proof. unfold main. destruct (stages c w); reflexivity. Qed.

Lemma bind_assoc {A B C} (m : Sh A) (f : A -> Sh B) (g : B -> Sh C) :
  bind (bind m f) g = bind m (fun a => bind (f a) g).
Proof.
  destruct m as [t [a | r]]; simpl; [| reflexivity].
  destruct (f a) as [u [b | r]]; simpl; [| reflexivity].
  destruct (g b) as [v r]. now rewrite app_assoc.
Qed.

Lemma trace_bind_prefix {A B} (m : Sh A) (f : A -> Sh B) :
  exists rest, trace (bind m f) = (trace m ++ rest)%list.
Proof.
  destruct m as [t [a | r]].
  - rewrite bind_ret. now exists (trace (f a)).
  - rewrite bind_abort. exists []. now rewrite app_nil_r.
Qed.

Lemma in_bind_first {A B} (e : event) (m : Sh A) (f : A -> Sh B) :
  In e (trace m) -> In e (trace (bind m f)).
Proof.
  destruct (trace_bind_prefix m f) as [rest ->]. intros H. apply in_or_app. now left.
Qed.

Lemma in_bind_later {A B} (e : event) (m : Sh A) (f : A -> Sh B) (a : A) :
  result m = Ret a -> In e (trace (f a)) -> In e (trace (bind m f)).
Proof.
  intros Hm H. rewrite (bind_returns m f a Hm), trace_pair. apply in_or_app. now right.
Qed.

Lemma only_weaken (P Q : call -> bool) (t : list event) :
  (forall k, P k = true -> Q k = true) ->
  Forall (only P) t -> Forall (only Q) t.
Proof.
  intros PQ. apply Forall_impl. intros [s msg | | k]; simpl; auto.
Qed.

(** ** Which calls a stage can make *)

Ltac seq := apply Forall_bind; [| intros ? _].
Ltac walk :=
  repeat match goal with
         | |- _ => solve [prim]
         | |- Forall _ (trace (bind _ _)) => apply Forall_bind; [| intros ? _]
         | |- Forall _ (trace (if ?b then _ else _)) => destruct b
         end
with prim :=
  unfold harmless, log_info, log_success, log_warning, log_error, exit1, ret, test,
    must, capture, expand, trace;
  simpl; repeat constructor.

Lemma check_tools_cons (w : world) (tool : string) (tools : list string) :
  check_tools w (tool :: tools) =
  (found <- test (CommandV tool) (command_v w tool) ;;
   if found then check_tools w tools
   else
     log_error (tool ++ " is not installed or not in PATH") ;;
     exit1).
Proof. reflexivity. Qed.

Lemma check_tools_calls (w : world) (tools : list string) :
  Forall (only prereq_call) (trace (check_tools w tools)).
Proof.
  induction tools as [| tool tools IH]; [prim |].
  rewrite check_tools_cons.
  seq; [prim |]. destruct a; [exact IH |]. seq; prim.
Qed.

Lemma check_prerequisites_calls (c : config) (w : world) :
  Forall (only prereq_call) (trace (check_prerequisites c w)).
Proof.
  unfold check_prerequisites.
  seq; [prim |]. seq; [apply check_tools_calls | walk].
Qed.

Lemma check_resources_calls (c : config) (w : world) :
  Forall (only audit_call) (trace (check_resources c w)).
Proof.
  unfold check_resources. walk.
Qed.

Lemma validation_calls (c : config) (w : world) :
  Forall (only before_namespace) (trace (validation c w)).
Proof.
  unfold validation. seq.
  - apply only_weaken with (P := prereq_call); [| apply check_prerequisites_calls].
    unfold before_namespace. now intros k ->.
  - apply only_weaken with (P := audit_call); [| apply check_resources_calls].
    unfold before_namespace. intros k ->. apply orb_true_r.
Qed.

Lemma before_namespace_harmless (k : call) :
  before_namespace k = true -> negb (mutating k) = true.
Proof. destruct k; simpl; intros H; try reflexivity; discriminate H. Qed.

Lemma validation_harmless (c : config) (w : world) :
  Forall harmless (trace (validation c w)).
Proof.
  apply only_weaken with (P := before_namespace); [| apply validation_calls].
  exact before_namespace_harmless.
Qed.

Lemma banner_calls (P : call -> bool) (c : config) : Forall (only P) (trace (banner c)).
Proof. unfold banner. walk. Qed.

(** ** Dry run *)

Lemma setup_namespace_dry (c : config) (w : world) :
  DRY_RUN c = true -> Forall harmless (trace (setup_namespace c w)).
Proof.
  intros dry. unfold setup_namespace. cbv zeta. rewrite dry. walk.
Qed.

Lemma helm_dry_run_flag (c : config) (w : world) :
  DRY_RUN c = true -> mutating (Helm (helm_args c w)) = false.
Proof.
  intros dry. unfold mutating, helm_args. rewrite dry.
  rewrite !existsb_app. simpl. now rewrite orb_true_r.
Qed.

Lemma deploy_model_dry (c : config) (w : world) :
  DRY_RUN c = true -> Forall harmless (trace (deploy_model c w)).
Proof.
  intros dry. unfold deploy_model.
  seq; [prim |]. seq.
  { destruct (file_exists _ _); prim. }
  seq.
  { rewrite dry. seq; prim. }
  seq.
  { unfold test, trace; simpl. constructor; [| constructor].
    unfold harmless, only. now rewrite helm_dry_run_flag. }
  destruct a2; [prim |]. seq; prim.
Qed.

Lemma monitor_deployment_dry (c : config) (w : world) :
  DRY_RUN c = true ->
  monitor_deployment c w = ([Log INFO "[DRY RUN] Skipping deployment monitoring"], Ret tt).
Proof. intros dry. unfold monitor_deployment. now rewrite dry. Qed.

Lemma health_check_dry (c : config) (w : world) :
  DRY_RUN c = true ->
  health_check c w = ([Log INFO "[DRY RUN] Skipping health checks"], Ret tt).
Proof. intros dry. unfold health_check. now rewrite dry. Qed.

Lemma stages_validation (c : config) (w : world) :
  stages c w = (banner c ;; validation c w ;; deployment c w).
Proof. unfold stages, validation, deployment. now rewrite bind_assoc. Qed.

Lemma banner_returns (c : config) : result (banner c) = Ret tt.
Proof. reflexivity. Qed.

Lemma validation_runs_first (c : config) (w : world) :
  exists rest,
    trace (main c w) = (trace (banner c) ++ trace (validation c w) ++ rest)%list.
Proof.
  rewrite main_trace, stages_validation.
  rewrite (bind_returns (banner c) _ tt (banner_returns c)), trace_pair.
  destruct (trace_bind_prefix (validation c w) (fun _ => deployment c w)) as [rest ->].
  exists (rest ++ cleanup w)%list. now rewrite <- !app_assoc.
Qed.

Lemma deployment_dry (c : config) (w : world) :
  DRY_RUN c = true -> Forall harmless (trace (deployment c w)).
Proof.
  intros dry. unfold deployment.
  seq; [now apply setup_namespace_dry |].
  seq; [now apply deploy_model_dry |].
  rewrite monitor_deployment_dry, health_check_dry by exact dry.
  prim.
Qed.

Lemma main_dry (c : config) (w : world) :
  DRY_RUN c = true -> Forall harmless (trace (main c w)).
Proof.
  intros dry. rewrite main_trace, stages_validation.
  apply Forall_app. split; [| prim].
  seq; [apply banner_calls |].
  seq; [apply validation_harmless | now apply deployment_dry].
Qed.

(** C1.  With DRY_RUN set, setup_namespace, deploy_model,
    monitor_deployment and health_check issue no call that changes the
    cluster (no namespace creation, no policy application, no helm
    upgrade without [--dry-run]), and neither does the run as a whole;
    the monitor and the health check issue no call at all.  The two
    validation stages do not look at DRY_RUN: they run first and are
    the same computation as in a real run. *)
Theorem dry_run_never_mutates (c : config) (w : world) :
  DRY_RUN c = true ->
  Forall harmless (trace (setup_namespace c w)) /\
  Forall harmless (trace (deploy_model c w)) /\
  calls (trace (monitor_deployment c w)) = [] /\
  calls (trace (health_check c w)) = [] /\
  Forall harmless (trace (main c w)) /\
  validation c w = validation (with_dry_run false c) w /\
  exists rest,
    trace (main c w) = (trace (banner c) ++ trace (validation c w) ++ rest)%list.
Proof.
  intros dry. repeat split.
  - now apply setup_namespace_dry.
  - now apply deploy_model_dry.
  - now rewrite monitor_deployment_dry.
  - now rewrite health_check_dry.
  - now apply main_dry.
  - apply validation_runs_first.
Qed.

Lemma dry_run_never_mutates_witness :
  let c := invoke "llama-70b" "production" true "600" in
  DRY_RUN c = true /\
  Forall harmless (trace (main c healthy)) /\
  calls (trace (validation c healthy)) =
    [CommandV "oc"; CommandV "kubectl"; CommandV "helm"; CommandV "jq"; OcWhoami;
     OcGetNodes; OcDescribeNodes; OcGetStorageclass].
Proof.
  split; [reflexivity |]. split; [| reflexivity].
  apply (dry_run_never_mutates (invoke "llama-70b" "production" true "600") healthy).
  reflexivity.
Defined.

(** ** Resource audit *)

Lemma check_resources_no_nodes (c : config) (w : world) :
  get_nodes w = Some 0 ->
  check_resources c w =
  ([Log INFO "Checking cluster resources...";
    Call OcGetNodes;
    Log ERROR "No GPU nodes available in cluster"], Abort ExitOne).
Proof. intros H. unfold check_resources. now rewrite H. Qed.

Lemma check_resources_no_storage (c : config) (w : world) (n : nat) (g : option Z) :
  get_nodes w = Some (S n) -> describe_gpus w = Some g ->
  get_storageclass w = Some 0 ->
  result (check_resources c w) = Abort ExitOne /\
  logged ERROR (trace (check_resources c w)) = ["No storage classes available"].
Proof.
  intros Hn Hg Hs. unfold check_resources. rewrite Hn, Hg, Hs.
  destruct (Z.eqb (default0 g) 0) eqn:E;
    unfold bind, capture, log_info, log_error, log_warning, exit1, ret;
    cbn [Nat.eqb]; rewrite ?E; split; reflexivity.
Qed.

Lemma check_resources_saturated (c : config) (w : world) (n k : nat) (g : option Z) :
  get_nodes w = Some (S n) -> describe_gpus w = Some g -> default0 g = 0%Z ->
  get_storageclass w = Some (S k) ->
  check_resources c w =
  ([Log INFO "Checking cluster resources...";
    Call OcGetNodes;
    Log INFO ("Found " ++ show_nat (S n) ++ " GPU nodes");
    Call OcDescribeNodes;
    Log WARNING "No GPUs currently available";
    Call OcGetStorageclass;
    Log SUCCESS "Resource check completed"], Ret tt).
Proof.
  intros Hn Hg Hz Hs. unfold check_resources. rewrite Hn, Hg, Hs.
  unfold bind, capture, log_info, log_error, log_warning, log_success, exit1, ret.
  cbn [Nat.eqb]. rewrite Hz. reflexivity.
Qed.

(** The audit cannot pass when a count it needs is zero. *)
Lemma check_resources_passes (c : config) (w : world) :
  result (check_resources c w) = Ret tt ->
  exists n g k,
    get_nodes w = Some (S n) /\ describe_gpus w = Some g /\
    get_storageclass w = Some (S k).
Proof.
  unfold check_resources.
  destruct (get_nodes w) as [[| n] |]; [discriminate | | discriminate].
  destruct (describe_gpus w) as [g |].
  2:{ unfold bind, capture, log_info, ret; cbn [Nat.eqb]. discriminate. }
  destruct (get_storageclass w) as [[| k] |].
  - unfold bind, capture, log_info, log_error, log_warning, exit1, ret; cbn [Nat.eqb].
    destruct (Z.eqb _ _); discriminate.
  - intros _. now exists n, g, k.
  - unfold bind, capture, log_info, log_error, log_warning, exit1, ret; cbn [Nat.eqb].
    destruct (Z.eqb _ _); discriminate.
Qed.

Lemma validation_passes (c : config) (w : world) :
  result (validation c w) = Ret tt <->
  result (check_prerequisites c w) = Ret tt /\ result (check_resources c w) = Ret tt.
Proof.
  unfold validation.
  destruct (check_prerequisites c w) as [t [[] | r]].
  - rewrite bind_ret, !result_pair. tauto.
  - rewrite bind_abort, !result_pair. split; [discriminate | intros [H _]; discriminate H].
Qed.

(** A run that stops during validation consists of the banner, the
    validation events and the exit trap: no later stage contributes. *)
Lemma halted_in_validation (c : config) (w : world) (r : abort) :
  result (validation c w) = Abort r ->
  main c w = ((trace (banner c) ++ trace (validation c w) ++ cleanup w)%list, Abort r).
Proof.
  intros H.
  rewrite (surjective_Sh (main c w)), main_trace, main_result, stages_validation.
  rewrite (bind_returns (banner c) _ tt (banner_returns c)), trace_pair, result_pair.
  rewrite (bind_aborts _ _ r H), trace_pair, result_pair.
  now rewrite <- app_assoc.
Qed.

(** A run whose validation passes goes on with the deployment stages. *)
Lemma passed_validation (c : config) (w : world) :
  result (validation c w) = Ret tt ->
  main c w =
  ((trace (banner c) ++ trace (validation c w) ++ trace (deployment c w) ++ cleanup w)%list,
   result (deployment c w)).
Proof.
  intros H.
  rewrite (surjective_Sh (main c w)), main_trace, main_result, stages_validation.
  rewrite (bind_returns (banner c) _ tt (banner_returns c)), trace_pair, result_pair.
  rewrite (bind_returns _ _ tt H), trace_pair, result_pair.
  now rewrite <- !app_assoc.
Qed.

Lemma failed_audit_halts (c : config) (w : world) :
  result (check_resources c w) <> Ret tt ->
  exit_zero (result (main c w)) = false /\
  trace (main c w) = (trace (banner c) ++ trace (validation c w) ++ cleanup w)%list /\
  Forall (only before_namespace) (trace (main c w)).
Proof.
  intros Hres.
  destruct (result (validation c w)) as [[] | r] eqn:E.
  - apply validation_passes in E. tauto.
  - rewrite (halted_in_validation c w r E), result_pair, trace_pair.
    repeat apply conj; try reflexivity.
    apply Forall_app. split; [apply banner_calls |].
    apply Forall_app. split; [apply validation_calls | repeat constructor].
Qed.

Lemma deployment_starts (c : config) (w : world) :
  exists rest, trace (deployment c w) = (trace (setup_namespace c w) ++ rest)%list.
Proof. apply trace_bind_prefix. Qed.

(** The verdicts of check_resources, given the outcome of the
    accelerator pipeline.
    Zero accelerator nodes: the stage logs an error and exits with
    status 1.  Zero storage classes: likewise.  In both cases the run
    ends with a non-zero status; its events are those of the banner,
    of the two validation stages and of the exit trap, so nothing of
    setup_namespace or of a later stage happens.  Zero allocatable
    accelerators on a non-zero number of nodes (with a storage class
    present): the stage logs one warning, no error, and returns, and
    main goes on with setup_namespace. *)
Theorem resource_audit_verdict (c : config) (w : world) :
  (get_nodes w = Some 0 \/ get_storageclass w = Some 0 ->
   exit_zero (result (main c w)) = false /\
   trace (main c w) = (trace (banner c) ++ trace (validation c w) ++ cleanup w)%list /\
   Forall (only before_namespace) (trace (main c w))) /\
  (get_nodes w = Some 0 ->
   result (check_resources c w) = Abort ExitOne /\
   logged ERROR (trace (check_resources c w)) = ["No GPU nodes available in cluster"]) /\
  (forall n g,
   get_nodes w = Some (S n) -> describe_gpus w = Some g ->
   get_storageclass w = Some 0 ->
   result (check_resources c w) = Abort ExitOne /\
   logged ERROR (trace (check_resources c w)) = ["No storage classes available"]) /\
  (forall n g k,
   get_nodes w = Some (S n) -> describe_gpus w = Some g -> default0 g = 0%Z ->
   get_storageclass w = Some (S k) ->
   result (check_resources c w) = Ret tt /\
   logged WARNING (trace (check_resources c w)) = ["No GPUs currently available"] /\
   logged ERROR (trace (check_resources c w)) = [] /\
   (result (check_prerequisites c w) = Ret tt ->
    exists rest,
      trace (main c w) =
      (trace (banner c) ++ trace (validation c w)
       ++ trace (setup_namespace c w) ++ rest)%list)).
Proof.
  repeat apply conj.
  - intros H. apply failed_audit_halts. intros Hpass.
    apply check_resources_passes in Hpass as (n & g & k & Hn & _ & Hk).
    destruct H as [H | H]; congruence.
  - intros H. now rewrite (check_resources_no_nodes c w H).
  - intros n g Hn Hg Hs. exact (check_resources_no_storage c w n g Hn Hg Hs).
  - intros n g k Hn Hg Hz Hs.
    rewrite (check_resources_saturated c w n k g Hn Hg Hz Hs).
    repeat apply conj; try reflexivity.
    intros Hpre.
    assert (Hval : result (validation c w) = Ret tt).
    { apply validation_passes. split; [exact Hpre |].
      now rewrite (check_resources_saturated c w n k g Hn Hg Hz Hs). }
    rewrite (passed_validation c w Hval), trace_pair.
    destruct (deployment_starts c w) as [rest ->].
    exists (rest ++ cleanup w)%list. now rewrite <- !app_assoc.
Qed.

Lemma resource_audit_verdict_witness :
  let c := invoke "stable-diffusion" "production" false "600" in
  (exit_zero (result (main c no_nodes)) = false /\
   Forall (only before_namespace) (trace (main c no_nodes))) /\
  (exit_zero (result (main c no_storage)) = false /\
   Forall (only before_namespace) (trace (main c no_storage))) /\
  result (check_resources c saturated) = Ret tt /\
  In (Call (OcCreateNamespace "ai-models")) (trace (main c saturated)).
Proof.
  repeat apply conj.
  - apply (proj1 (resource_audit_verdict
                    (invoke "stable-diffusion" "production" false "600") no_nodes)).
    left; reflexivity.
  - apply (proj1 (resource_audit_verdict
                    (invoke "stable-diffusion" "production" false "600") no_nodes)).
    left; reflexivity.
  - apply (proj1 (resource_audit_verdict
                    (invoke "stable-diffusion" "production" false "600") no_storage)).
    right; reflexivity.
  - apply (proj1 (resource_audit_verdict
                    (invoke "stable-diffusion" "production" false "600") no_storage)).
    right; reflexivity.
  - apply (resource_audit_verdict (invoke "stable-diffusion" "production" false "600") saturated)
      with (n := 2) (g := Some 0%Z) (k := 0); reflexivity.
  - vm_compute. tauto.
Defined.

(** *** The accelerator pipeline on the text of [oc describe] *)

Example available_gpus_sums_second_fields :
  available_gpus (Some ["nvidia.com/gpu 4 Allocatable";
                        "nvidia.com/gpu 2";
                        "nvidiaXcom/gpu 1";
                        "nvidia.com/gpu 5"]) = Some (Some 6%Z).
Proof. reflexivity. Qed.

Example available_gpus_without_gpu_lines :
  available_gpus (Some ["Name: cpu-worker-1"; "Allocatable:"; "  cpu: 95"]) = None.
Proof. reflexivity. Qed.

Lemma available_gpus_needs_allocation_line (text : list string) :
  selects allocation_line (grep gpu_line text) = false ->
  available_gpus (Some text) = None.
Proof.
  intros H. unfold available_gpus. cbv zeta. rewrite H.
  now rewrite andb_false_r.
Qed.

Lemma check_tools_no_warning (w : world) (tools : list string) :
  Forall no_warning (trace (check_tools w tools)).
Proof.
  induction tools as [| tool tools IH]; [prim |].
  rewrite check_tools_cons.
  seq; [prim |]. destruct a; [exact IH | walk].
Qed.

Lemma check_prerequisites_no_warning (c : config) (w : world) :
  Forall no_warning (trace (check_prerequisites c w)).
Proof.
  unfold check_prerequisites.
  seq; [prim |]. seq; [apply check_tools_no_warning | walk].
Qed.

Lemma no_warning_logged (t : list event) :
  Forall no_warning t -> logged WARNING t = [].
Proof.
  induction 1 as [| e t He _ IH]; [reflexivity |].
  unfold logged. cbn [flat_map]. fold (logged WARNING t). rewrite IH.
  destruct e as [[] msg | | k]; try reflexivity. destruct He.
Qed.

(** C2 (the code departs from the claim).  The accelerator pipeline
    keeps, of the lines of [oc describe] that mention nvidia.com/gpu,
    those that also mention Allocatable or Allocated resources.  In
    the text [oc describe] prints these are section headings on lines
    of their own, so the second grep selects nothing, the pipeline
    fails, and [set -e] ends the run at the assignment.  On such text,
    with accelerator nodes present, check_resources stops right after
    [oc describe nodes] without a verdict on the units: no warning is
    logged anywhere in the run, the status is not zero and
    setup_namespace and the later stages do not run. *)
Theorem zero_allocatable_aborts (c : config) (w : world) (text : list string) (n : nat) :
  describe_gpus w = available_gpus (Some text) ->
  selects allocation_line (grep gpu_line text) = false ->
  get_nodes w = Some (S n) ->
  check_resources c w =
    ([Log INFO "Checking cluster resources...";
      Call OcGetNodes;
      Log INFO ("Found " ++ show_nat (S n) ++ " GPU nodes");
      Call OcDescribeNodes], Abort ErrExit) /\
  logged WARNING (trace (main c w)) = [] /\
  exit_zero (result (main c w)) = false /\
  Forall (only before_namespace) (trace (main c w)).
Proof.
  intros Hread Hsel Hn.
  rewrite (available_gpus_needs_allocation_line text Hsel) in Hread.
  assert (E : check_resources c w =
    ([Log INFO "Checking cluster resources...";
      Call OcGetNodes;
      Log INFO ("Found " ++ show_nat (S n) ++ " GPU nodes");
      Call OcDescribeNodes], Abort ErrExit)).
  { unfold check_resources. rewrite Hn, Hread. reflexivity. }
  assert (Hfail : result (check_resources c w) <> Ret tt) by (rewrite E; discriminate).
  destruct (failed_audit_halts c w Hfail) as (Hexit & Htrace & Hcalls).
  repeat apply conj; [exact E | | exact Hexit | exact Hcalls].
  rewrite Htrace. apply no_warning_logged.
  apply Forall_app. split; [repeat constructor |].
  apply Forall_app. split; [| repeat constructor].
  unfold validation.
  apply Forall_bind; [apply check_prerequisites_no_warning | intros _ _].
  rewrite E. repeat constructor.
Qed.

Lemma zero_allocatable_aborts_witness :
  let c := invoke "llama-7b" "staging" false "600" in
  main c unallocatable =
  ([Log INFO "Starting AI model deployment";
    Log INFO "Model: llama-7b, Environment: staging, Namespace: ai-models";
    Log INFO "Dry run: false, Verbose: false";
    Log INFO "Checking prerequisites...";
    Call (CommandV "oc"); Call (CommandV "kubectl");
    Call (CommandV "helm"); Call (CommandV "jq");
    Call OcWhoami;
    Log SUCCESS "Prerequisites check passed";
    Log INFO "Checking cluster resources...";
    Call OcGetNodes;
    Log INFO "Found 3 GPU nodes";
    Call OcDescribeNodes;
    Log INFO "Deployment log saved to: /tmp/model-deployment-20240101-120000.log"],
   Abort ErrExit) /\
  logged WARNING (trace (main c unallocatable)) = [] /\
  exit_zero (result (main c unallocatable)) = false.
Proof.
  cbv zeta. split; [reflexivity |].
  destruct (zero_allocatable_aborts (invoke "llama-7b" "staging" false "600")
              unallocatable describe_unallocatable 2) as (_ & Hw & Hx & _);
    try reflexivity.
  split; [exact Hw | exact Hx].
Defined.

(** ** Model type validation *)

Lemma prefix_cons (a b : ascii) (s t : string) :
  String.prefix (String a s) (String b t) = Ascii.eqb a b && String.prefix s t.
Proof.
  cbn [String.prefix]. destruct (ascii_dec a b) as [-> | ne].
  - now rewrite Ascii.eqb_refl.
  - apply Ascii.eqb_neq in ne. now rewrite ne.
Qed.

Lemma prefix_first_word (m s : string) :
  no_space m = true -> String.prefix (m ++ " ") s = true -> first_word s = Some m.
Proof.
  revert s. induction m as [| a m IH]; intros [| b s] Hm Hp; cbn [append] in Hp;
    try discriminate Hp; rewrite prefix_cons in Hp; apply andb_prop in Hp as [Hab Hp];
    apply Ascii.eqb_eq in Hab; subst b; cbn [first_word].
  - reflexivity.
  - cbn [no_space] in Hm. apply andb_prop in Hm as [Ha Hm].
    destruct (is_space a); [discriminate Ha |].
    now rewrite (IH s Hm Hp).
Qed.

Lemma contains_spaced_word (m s : string) :
  no_space m = true ->
  contains (" " ++ m ++ " ") s = true -> In m (spaced_words s).
Proof.
  intros Hm. induction s as [| b s IH]; [discriminate |].
  cbn [contains spaced_words]. intros H. apply in_or_app.
  apply orb_prop in H as [H | H]; [left | right; now apply IH].
  change (" " ++ m ++ " ") with (String " " (m ++ " ")) in H.
  rewrite prefix_cons in H. apply andb_prop in H as [Hb H].
  apply Ascii.eqb_eq in Hb; subst b.
  change (is_space " ") with true. cbv iota.
  rewrite (prefix_first_word m s Hm H). now left.
Qed.

(** A model type without a space passes the test only if it is one of
    the five valid models. *)
Lemma model_type_ok_valid (m : string) :
  no_space m = true -> model_type_ok m = true -> In m valid_models.
Proof.
  intros Hm H. apply (contains_spaced_word m _ Hm) in H. exact H.
Qed.

Lemma valid_model_type_ok (m : string) :
  In m valid_models -> model_type_ok m = true.
Proof.
  intros H. repeat (destruct H as [<- | H]; [reflexivity |]). destruct H.
Qed.

(** The test is a substring test: two valid names in a row pass it. *)
Example model_type_ok_two_names :
  model_type_ok "llama-7b llama-13b" = true /\ ~ In "llama-7b llama-13b" valid_models.
Proof.
  split; [reflexivity |].
  intros H. repeat (destruct H as [H | H]; [discriminate H |]). destruct H.
Qed.

(** ** Prerequisites *)

Lemma check_tools_present (w : world) (tools : list string) :
  (forall tool, In tool tools -> command_v w tool = true) ->
  check_tools w tools = (map (fun tool => Call (CommandV tool)) tools, Ret tt).
Proof.
  induction tools as [| tool tools IH]; intros H; [reflexivity |].
  rewrite check_tools_cons, (H tool (or_introl eq_refl)).
  unfold test. rewrite bind_ret, IH by (intros t Ht; apply H; now right).
  reflexivity.
Qed.

(** With the tools installed and a session open, an invalid model type
    is what check_prerequisites reports. *)
Lemma check_prerequisites_invalid (c : config) (w : world) :
  (forall tool, In tool required_tools -> command_v w tool = true) ->
  oc_whoami w = true ->
  model_type_ok (MODEL_TYPE c) = false ->
  check_prerequisites c w =
  ([Log INFO "Checking prerequisites...";
    Call (CommandV "oc"); Call (CommandV "kubectl");
    Call (CommandV "helm"); Call (CommandV "jq");
    Call OcWhoami;
    Log ERROR (invalid_model_type (MODEL_TYPE c));
    Log INFO "Valid models: llama-7b llama-13b llama-70b stable-diffusion code-llama"],
   Abort ExitOne).
Proof.
  intros Htools Hwho Hbad. unfold check_prerequisites.
  rewrite (check_tools_present w required_tools Htools), Hwho, Hbad.
  reflexivity.
Qed.

(** check_prerequisites returns only for a model type that passes the
    test. *)
Lemma check_prerequisites_passes (c : config) (w : world) :
  result (check_prerequisites c w) = Ret tt -> model_type_ok (MODEL_TYPE c) = true.
Proof.
  unfold check_prerequisites. intros H.
  destruct (model_type_ok (MODEL_TYPE c)); [reflexivity | exfalso].
  revert H. unfold log_info at 1. rewrite bind_ret, result_pair.
  destruct (check_tools w required_tools) as [t [[] | r]];
    [rewrite bind_ret, result_pair | discriminate 1].
  unfold test. rewrite bind_ret, result_pair.
  destruct (oc_whoami w); [| discriminate 1].
  discriminate 1.
Qed.

Lemma failed_prerequisites_halt (c : config) (w : world) (r : abort) :
  result (check_prerequisites c w) = Abort r ->
  main c w =
  ((trace (banner c) ++ trace (check_prerequisites c w) ++ cleanup w)%list, Abort r).
Proof.
  intros E.
  assert (V : validation c w = (trace (check_prerequisites c w), Abort r)).
  { unfold validation. now apply bind_aborts. }
  rewrite (halted_in_validation c w r); now rewrite V.
Qed.

(** C3 (as stated, it fails).  For the model type gpt-4, which is not
    one of the five valid models: on a machine with every tool and an
    open session the rejection comes after [oc whoami], a call to the
    cluster; on a machine without jq the run is rejected for the
    missing tool and the model type is never examined. *)
Lemma invalid_model_type_counterexample :
  let c := invoke "gpt-4" "staging" false "600" in
  ~ In (MODEL_TYPE c) valid_models /\
  filter cluster_call (calls (trace (main c healthy))) = [OcWhoami] /\
  logged ERROR (trace (main c healthy)) = [invalid_model_type "gpt-4"] /\
  ~ In (invalid_model_type "gpt-4") (logged ERROR (trace (main c without_jq))).
Proof.
  cbv zeta. repeat apply conj; try reflexivity.
  - intros H. repeat (destruct H as [H | H]; [discriminate H |]). destruct H.
  - vm_compute. intros [H | []]. discriminate H.
Qed.

(** C3 (amended).  A model type that contains no space and is not one
    of the five valid models never gets past check_prerequisites: the
    run ends with a non-zero status and its only calls are the tool
    look-ups and [oc whoami].  When the four tools are installed and
    the session is open, the run ends by [exit 1] with the single
    error "Invalid model type: ..." after exactly those five calls. *)
Theorem invalid_model_type_rejected (c : config) (w : world) :
  ~ In (MODEL_TYPE c) valid_models ->
  no_space (MODEL_TYPE c) = true ->
  exit_zero (result (main c w)) = false /\
  Forall (only prereq_call) (trace (main c w)) /\
  ((forall tool, In tool required_tools -> command_v w tool = true) ->
   oc_whoami w = true ->
   result (main c w) = Abort ExitOne /\
   logged ERROR (trace (main c w)) = [invalid_model_type (MODEL_TYPE c)] /\
   calls (trace (main c w)) =
     [CommandV "oc"; CommandV "kubectl"; CommandV "helm"; CommandV "jq"; OcWhoami]).
Proof.
  intros Hout Hsp.
  assert (Hbad : model_type_ok (MODEL_TYPE c) = false).
  { destruct (model_type_ok (MODEL_TYPE c)) eqn:E; [| reflexivity].
    exfalso. apply Hout. now apply model_type_ok_valid. }
  assert (Hfail : result (check_prerequisites c w) <> Ret tt).
  { intros H. apply check_prerequisites_passes in H. congruence. }
  destruct (result (check_prerequisites c w)) as [[] | r] eqn:E; [congruence |].
  pose proof (failed_prerequisites_halt c w r E) as Hmain.
  repeat apply conj.
  - now rewrite Hmain.
  - rewrite Hmain, trace_pair.
    apply Forall_app. split; [apply banner_calls |].
    apply Forall_app. split; [apply check_prerequisites_calls | repeat constructor].
  - intros Htools Hwho.
    rewrite (check_prerequisites_invalid c w Htools Hwho Hbad) in E, Hmain.
    rewrite result_pair in E. injection E as <-.
    rewrite Hmain. repeat apply conj; reflexivity.
Qed.

Lemma invalid_model_type_rejected_witness :
  let c := invoke "llama-30b" "staging" false "600" in
  exit_zero (result (main c healthy)) = false /\
  Forall (only prereq_call) (trace (main c healthy)) /\
  logged ERROR (trace (main c healthy)) = ["Invalid model type: llama-30b"].
Proof.
  cbv zeta.
  destruct (invalid_model_type_rejected (invoke "llama-30b" "staging" false "600") healthy)
    as (H1 & H2 & H3).
  - intros H. repeat (destruct H as [H | H]; [discriminate H |]). destruct H.
  - reflexivity.
  - split; [exact H1 | split; [exact H2 |]].
    apply H3; [intros tool _ |]; reflexivity.
Defined.

(** ** Missing tools *)

Lemma check_tools_first_missing (w : world) (present : list string) (tool : string)
    (unchecked : list string) :
  (forall t, In t present -> command_v w t = true) ->
  command_v w tool = false ->
  check_tools w (present ++ tool :: unchecked) =
  ((map (fun t => Call (CommandV t)) present
    ++ [Call (CommandV tool); Log ERROR (not_installed tool)])%list,
   Abort ExitOne).
Proof.
  intros Hpresent Hmissing.
  induction present as [| t present IH]; cbn [app map].
  - rewrite check_tools_cons, Hmissing. reflexivity.
  - rewrite check_tools_cons, (Hpresent t (or_introl eq_refl)).
    unfold test. rewrite bind_ret, IH by (intros u Hu; apply Hpresent; now right).
    reflexivity.
Qed.

(** C4 (as stated, it fails).  With kubectl and jq both missing, the
    run reports kubectl alone: jq is neither looked up nor reported. *)
Lemma missing_tools_counterexample :
  let c := invoke "llama-7b" "staging" false "600" in
  let t := trace (main c without_kubectl_jq) in
  command_v without_kubectl_jq "kubectl" = false /\
  command_v without_kubectl_jq "jq" = false /\
  calls t = [CommandV "oc"; CommandV "kubectl"] /\
  logged ERROR t = [not_installed "kubectl"] /\
  ~ In (not_installed "jq") (logged ERROR t).
Proof.
  cbv zeta. repeat apply conj; try reflexivity.
  vm_compute. intros [H | []]. discriminate H.
Qed.

(** C4 (amended).  check_prerequisites stops at the first required
    tool that is missing, in the order oc, kubectl, helm, jq: it looks
    up the tools before it and that tool, logs one error naming it,
    and ends the run by [exit 1]; the tools after it are not looked up
    and the session and the model type are not examined. *)
Theorem first_missing_tool_aborts (c : config) (w : world)
    (present : list string) (tool : string) (unchecked : list string) :
  required_tools = (present ++ tool :: unchecked)%list ->
  (forall t, In t present -> command_v w t = true) ->
  command_v w tool = false ->
  check_prerequisites c w =
    ((Log INFO "Checking prerequisites..."
      :: map (fun t => Call (CommandV t)) present
      ++ [Call (CommandV tool); Log ERROR (not_installed tool)])%list,
     Abort ExitOne) /\
  main c w =
    ((trace (banner c) ++ trace (check_prerequisites c w) ++ cleanup w)%list,
     Abort ExitOne).
Proof.
  intros Hsplit Hpresent Hmissing.
  assert (E : check_prerequisites c w =
    ((Log INFO "Checking prerequisites..."
      :: map (fun t => Call (CommandV t)) present
      ++ [Call (CommandV tool); Log ERROR (not_installed tool)])%list,
     Abort ExitOne)).
  { unfold check_prerequisites. rewrite Hsplit.
    rewrite (check_tools_first_missing w present tool unchecked Hpresent Hmissing).
    reflexivity. }
  split; [exact E |].
  apply failed_prerequisites_halt. now rewrite E.
Qed.

Lemma first_missing_tool_aborts_witness :
  let c := invoke "llama-7b" "staging" false "600" in
  check_prerequisites c without_kubectl_jq =
    ([Log INFO "Checking prerequisites..."; Call (CommandV "oc");
      Call (CommandV "kubectl"); Log ERROR "kubectl is not installed or not in PATH"],
     Abort ExitOne).
Proof.
  cbv zeta.
  apply (first_missing_tool_aborts (invoke "llama-7b" "staging" false "600")
           without_kubectl_jq ["oc"] "kubectl" ["helm"; "jq"]).
  - reflexivity.
  - intros t [<- | []]. reflexivity.
  - reflexivity.
Defined.

(** ** The timeout *)

(** C9 (as stated, it fails).  Timeouts of zero, of a negative number
    and of no number at all are accepted: the run goes through every
    stage and ends with status 0, the value reaching helm and the
    rollout wait unchanged. *)
Lemma timeout_counterexample :
  exit_zero (result (script ["-t"; "0"] healthy)) = true /\
  exit_zero (result (script ["--timeout"; "-5"] healthy)) = true /\
  exit_zero (result (script ["-t"; "soon"] healthy)) = true /\
  In (OcRolloutStatus "llama-7b-inference" "ai-models" "0s")
     (calls (trace (script ["-t"; "0"] healthy))) /\
  In (Curl "https://models.apps.example.com/health")
     (calls (trace (script ["-t"; "0"] healthy))).
Proof. repeat apply conj; try reflexivity; vm_compute; tauto. Qed.

(** C9 (amended).  The timeout is not validated.  Whatever string
    follows [-t] or [--timeout] is stored as it is; the validation
    stages and setup_namespace do not depend on it; deploy_model hands
    it to helm as [--timeout <value>s] and monitor_deployment hands
    [<value>s] to the rollout wait. *)
Theorem timeout_not_validated (v : string) (rest : list string) (c : config) (w : world) :
  parse_args ("-t" :: v :: rest) c = parse_args rest (with_timeout v c) /\
  parse_args ("--timeout" :: v :: rest) c = parse_args rest (with_timeout v c) /\
  validation (with_timeout v c) w = validation c w /\
  setup_namespace (with_timeout v c) w = setup_namespace c w /\
  (exists l r,
     helm_args (with_timeout v c) w = (l ++ "--timeout" :: (v ++ "s")%string :: r)%list) /\
  (forall name,
     DRY_RUN c = false ->
     deployment_name (MODEL_TYPE c) = Some name ->
     In (Call (OcRolloutStatus name (NAMESPACE c) (v ++ "s")))
        (trace (monitor_deployment (with_timeout v c) w))).
Proof.
  repeat apply conj; try reflexivity.
  - unfold helm_args, spec_args, base_args.
    eexists [_; _; _; _; _; _; _; _], _. cbn [app TIMEOUT with_timeout]. reflexivity.
  - intros name Hdry Hname. unfold monitor_deployment.
    cbn [DRY_RUN MODEL_TYPE NAMESPACE TIMEOUT with_timeout]. rewrite Hdry, Hname.
    unfold log_info at 1, expand. rewrite bind_ret, bind_ret, trace_pair, trace_pair.
    unfold log_info at 1. rewrite bind_ret, trace_pair.
    unfold test at 1. rewrite bind_ret, trace_pair.
    cbn [app]. right. right. now left.
Qed.

Lemma timeout_not_validated_witness :
  In (Call (OcRolloutStatus "llama-7b-inference" "ai-models" "0s"))
     (trace (monitor_deployment (with_timeout "0" defaults) healthy)).
Proof.
  apply (timeout_not_validated "0" [] defaults healthy); reflexivity.
Defined.

(** ** The release specification *)

Ltac not_among H :=
  repeat (destruct H as [H | H]; [discriminate H |]); destruct H.

Lemma model_args_cases (m : string) :
  (m = "llama-7b" /\ model_args m = model_args "llama-7b") \/
  (m = "llama-13b" /\ model_args m = model_args "llama-13b") \/
  (m = "llama-70b" /\ model_args m = model_args "llama-70b") \/
  (m = "stable-diffusion" /\ model_args m = model_args "stable-diffusion") \/
  (m = "code-llama" /\ model_args m = model_args "code-llama") \/
  (~ In m valid_models /\ model_args m = []).
Proof.
  unfold model_args at 1.
  destruct (String.eqb_spec m "llama-7b") as [-> | n1]; [now left |]. right.
  destruct (String.eqb_spec m "llama-13b") as [-> | n2]; [now left |]. right.
  destruct (String.eqb_spec m "llama-70b") as [-> | n3]; [now left |]. right.
  destruct (String.eqb_spec m "stable-diffusion") as [-> | n4]; [now left |]. right.
  destruct (String.eqb_spec m "code-llama") as [-> | n5]; [now left |]. right.
  split.
  - intros [H | [H | [H | [H | [H | []]]]]]; congruence.
  - unfold model_args.
    now rewrite (proj2 (String.eqb_neq _ _) n1), (proj2 (String.eqb_neq _ _) n2),
      (proj2 (String.eqb_neq _ _) n3), (proj2 (String.eqb_neq _ _) n4),
      (proj2 (String.eqb_neq _ _) n5).
Qed.

(** C5.  The arguments deploy_model adds for llama-70b end with the
    memory override (128Gi) and the accelerator override (4), and no
    other model type gets either.  The arguments for code-llama are
    those of llama-7b (the same size, no resource override) with the
    variant flag inserted, and no other model type gets that flag.
    The model arguments are part of what helm is called with. *)
Theorem model_specific_overrides :
  model_args "llama-70b" =
    ["--set"; "llama.enabled=true";
     "--set"; "llama.model.size=70b";
     "--set"; "stableDiffusion.enabled=false";
     "--set"; memory_override;
     "--set"; gpu_override] /\
  (forall m, m <> "llama-70b" ->
     ~ In memory_override (model_args m) /\ ~ In gpu_override (model_args m)) /\
  model_args "llama-7b" =
    ["--set"; "llama.enabled=true";
     "--set"; "llama.model.size=7b";
     "--set"; "stableDiffusion.enabled=false"] /\
  model_args "code-llama" =
    ["--set"; "llama.enabled=true";
     "--set"; "llama.model.size=7b";
     "--set"; variant_flag;
     "--set"; "stableDiffusion.enabled=false"] /\
  (forall m, m <> "code-llama" -> ~ In variant_flag (model_args m)) /\
  (forall c w, exists l r,
     helm_args c w = (l ++ model_args (MODEL_TYPE c) ++ r)%list /\
     In (Call (Helm (helm_args c w))) (trace (deploy_model c w))).
Proof.
  repeat apply conj; try reflexivity.
  - intros m Hm.
    destruct (model_args_cases m) as [[-> _] | [[-> _] | [[-> _] | [[-> _] | [[-> _] | [_ ->]]]]]];
      try congruence; split; intros H; not_among H.
  - intros m Hm.
    destruct (model_args_cases m) as [[-> _] | [[-> _] | [[-> _] | [[-> _] | [[-> _] | [_ ->]]]]]];
      try congruence; intros H; not_among H.
  - intros c w. exists (base_args c w).
    exists ((if DRY_RUN c then ["--dry-run"] else [])
            ++ (if VERBOSE c then ["--debug"] else []))%list.
    split.
    + unfold helm_args, spec_args. now rewrite <- app_assoc.
    + unfold deploy_model.
      apply in_bind_later with (a := tt); [reflexivity |].
      apply in_bind_later with (a := tt);
        [destruct (file_exists w (env_values_file c w)); reflexivity |].
      apply in_bind_later with (a := tt); [destruct (DRY_RUN c); reflexivity |].
      apply in_bind_first. now left.
Qed.

Lemma model_specific_overrides_witness :
  ~ In memory_override (model_args "llama-13b") /\
  ~ In variant_flag (model_args "llama-7b").
Proof.
  destruct model_specific_overrides as (_ & H70 & _ & _ & Hcode & _).
  split.
  - apply (H70 "llama-13b"). discriminate.
  - apply (Hcode "llama-7b"). discriminate.
Defined.

(** ** Results of sequences *)

Lemma result_seq (m k : Sh unit) :
  result (m ;; k) = Ret tt <-> result m = Ret tt /\ result k = Ret tt.
Proof.
  destruct m as [t [[] | r]].
  - rewrite bind_ret, !result_pair. tauto.
  - rewrite bind_abort, !result_pair. split; [discriminate | intros [H _]; discriminate H].
Qed.

Lemma unit_result (r : res unit) : exit_zero r = true <-> r = Ret tt.
Proof. destruct r as [[] | a]; simpl; split; congruence. Qed.

(** The run ends with status 0 exactly when each of the six stages
    returns. *)
Lemma main_succeeds (c : config) (w : world) :
  exit_zero (result (main c w)) = true <->
  result (check_prerequisites c w) = Ret tt /\
  result (check_resources c w) = Ret tt /\
  result (setup_namespace c w) = Ret tt /\
  result (deploy_model c w) = Ret tt /\
  result (monitor_deployment c w) = Ret tt /\
  result (health_check c w) = Ret tt.
Proof.
  rewrite unit_result, main_result. unfold stages.
  rewrite !result_seq. rewrite banner_returns.
  change (result (log_success "Deployment completed successfully!")) with (Ret tt).
  tauto.
Qed.

(** ** The values file *)

Lemma deploy_model_result (c : config) (w : world) :
  result (deploy_model c w) = Ret tt <-> helm w (helm_args c w) = true.
Proof.
  unfold deploy_model. rewrite !result_seq.
  unfold test. rewrite bind_ret, result_pair.
  destruct (helm w (helm_args c w)), (file_exists w (env_values_file c w)), (DRY_RUN c);
    cbn; split; try tauto; try discriminate; intros (_ & _ & _ & H); discriminate H.
Qed.

Lemma deploy_model_warnings (c : config) (w : world) :
  logged WARNING (trace (deploy_model c w)) =
  if file_exists w (env_values_file c w) then []
  else [values_not_found (env_values_file c w)].
Proof.
  unfold deploy_model.
  destruct (helm w (helm_args c w)), (file_exists w (env_values_file c w)), (DRY_RUN c);
    reflexivity.
Qed.

Lemma deploy_model_calls_helm (c : config) (w : world) :
  calls (trace (deploy_model c w)) = [Helm (helm_args c w)].
Proof.
  unfold deploy_model.
  destruct (helm w (helm_args c w)), (file_exists w (env_values_file c w)), (DRY_RUN c);
    reflexivity.
Qed.

(** C8.  When the values file of the environment is absent,
    deploy_model logs a warning and gives helm the default values
    file; when it is present, that file is given and no warning is
    logged.  Either way helm is called, once, and deploy_model fails
    only when that call fails. *)
Theorem values_file_fallback (c : config) (w : world) :
  (file_exists w (env_values_file c w) = false ->
   values_file c w = default_values_file w /\
   logged WARNING (trace (deploy_model c w)) = [values_not_found (env_values_file c w)]) /\
  (file_exists w (env_values_file c w) = true ->
   values_file c w = env_values_file c w /\
   logged WARNING (trace (deploy_model c w)) = []) /\
  (exists l r, helm_args c w = (l ++ "--values" :: values_file c w :: r)%list) /\
  calls (trace (deploy_model c w)) = [Helm (helm_args c w)] /\
  (result (deploy_model c w) = Ret tt <-> helm w (helm_args c w) = true).
Proof.
  repeat apply conj.
  - intros H. rewrite deploy_model_warnings. unfold values_file. now rewrite H.
  - intros H. rewrite deploy_model_warnings. unfold values_file. now rewrite H.
  - unfold helm_args, spec_args, base_args.
    eexists [_; _; _; _; _; _], _. cbn [app]. reflexivity.
  - apply deploy_model_calls_helm.
  - apply deploy_model_result.
  - apply deploy_model_result.
Qed.

Lemma values_file_fallback_witness :
  let c := invoke "llama-7b" "production" false "600" in
  (values_file c without_env_values = "/opt/mlops/deployments/helm/ai-models/values.yaml" /\
   logged WARNING (trace (deploy_model c without_env_values)) =
     ["Environment-specific values file not found: /opt/mlops/deployments/helm/ai-models/values-production.yaml"]) /\
  (values_file c healthy = "/opt/mlops/deployments/helm/ai-models/values-production.yaml" /\
   logged WARNING (trace (deploy_model c healthy)) = []).
Proof.
  cbv zeta. split.
  - apply (values_file_fallback (invoke "llama-7b" "production" false "600") without_env_values).
    reflexivity.
  - apply (values_file_fallback (invoke "llama-7b" "production" false "600") healthy).
    reflexivity.
Defined.

(** ** The rollout monitor *)

Lemma deployment_name_cases (m name : string) :
  deployment_name m = Some name ->
  name = "llama-7b-inference" \/ (m = "stable-diffusion" /\ name = "stable-diffusion-xl").
Proof.
  unfold deployment_name.
  destruct (glob_llama m); [intros [= <-]; now left |].
  destruct (String.eqb_spec m "stable-diffusion") as [-> | _]; [intros [= <-]; now right |].
  destruct (m =? "code-llama"); [intros [= <-]; now left | discriminate].
Qed.

Lemma monitor_deployment_polls (c : config) (w : world) (name : string) :
  DRY_RUN c = false ->
  deployment_name (MODEL_TYPE c) = Some name ->
  exists rest,
    calls (trace (monitor_deployment c w)) =
    OcRolloutStatus name (NAMESPACE c) (TIMEOUT c ++ "s") :: rest.
Proof.
  intros Hdry Hname. unfold monitor_deployment. cbv zeta. rewrite Hdry, Hname.
  unfold log_info at 1 2, expand, test at 1. rewrite !bind_ret, !trace_pair.
  eexists. reflexivity.
Qed.

(** C10.  llama-13b and llama-70b are monitored as the deployment
    llama-7b-inference, the name used for llama-7b and code-llama
    too; stable-diffusion alone has its own, stable-diffusion-xl.  In
    a real run the rollout wait is the first call of
    monitor_deployment and it is made for that name. *)
Theorem llama_models_share_deployment :
  deployment_name "llama-13b" = Some "llama-7b-inference" /\
  deployment_name "llama-70b" = Some "llama-7b-inference" /\
  deployment_name "llama-7b" = Some "llama-7b-inference" /\
  deployment_name "code-llama" = Some "llama-7b-inference" /\
  deployment_name "stable-diffusion" = Some "stable-diffusion-xl" /\
  (forall m name,
     deployment_name m = Some name ->
     name = "llama-7b-inference" \/
     (m = "stable-diffusion" /\ name = "stable-diffusion-xl")) /\
  (forall c w name,
     DRY_RUN c = false ->
     deployment_name (MODEL_TYPE c) = Some name ->
     exists rest,
       calls (trace (monitor_deployment c w)) =
       OcRolloutStatus name (NAMESPACE c) (TIMEOUT c ++ "s") :: rest).
Proof.
  repeat apply conj; try reflexivity.
  - exact deployment_name_cases.
  - exact monitor_deployment_polls.
Qed.

Lemma llama_models_share_deployment_witness :
  exists rest,
    calls (trace (monitor_deployment (invoke "llama-70b" "production" false "900") healthy)) =
    OcRolloutStatus "llama-7b-inference" "ai-models" "900s" :: rest.
Proof.
  apply (proj2 (proj2 (proj2 (proj2 (proj2 (proj2 llama_models_share_deployment)))))
           (invoke "llama-70b" "production" false "900") healthy "llama-7b-inference");
    reflexivity.
Defined.

Lemma monitor_deployment_timed_out (c : config) (w : world) (name : string) :
  DRY_RUN c = false ->
  deployment_name (MODEL_TYPE c) = Some name ->
  rollout_status w name (NAMESPACE c) (TIMEOUT c ++ "s") = false ->
  monitor_deployment c w =
  ([Log INFO "Monitoring deployment progress...";
    Log INFO ("Waiting for deployment " ++ name ++ " to be ready...");
    Call (OcRolloutStatus name (NAMESPACE c) (TIMEOUT c ++ "s"));
    Log ERROR (not_ready name);
    Log INFO "Showing pod logs for debugging:";
    Call (OcLogs name (NAMESPACE c) 50)],
   Abort (if logs w name (NAMESPACE c) 50 then ExitOne else ErrExit)).
Proof.
  intros Hdry Hname Hwait. unfold monitor_deployment. cbv zeta.
  rewrite Hdry, Hname.
  unfold log_info at 1 2, expand, test at 1. rewrite !bind_ret. rewrite Hwait.
  unfold log_tail. destruct (logs w name (NAMESPACE c) 50); reflexivity.
Qed.

Lemma setup_namespace_no_health (c : config) (w : world) :
  Forall (only not_health) (trace (setup_namespace c w)).
Proof.
  unfold setup_namespace. cbv zeta. walk.
Qed.

Lemma deploy_model_no_health (c : config) (w : world) :
  Forall (only not_health) (trace (deploy_model c w)).
Proof.
  unfold deploy_model. walk.
Qed.

Lemma monitor_deployment_no_health (c : config) (w : world) :
  Forall (only not_health) (trace (monitor_deployment c w)).
Proof.
  unfold monitor_deployment. cbv zeta. walk.
Qed.

Lemma validation_no_health (c : config) (w : world) :
  Forall (only not_health) (trace (validation c w)).
Proof.
  apply only_weaken with (P := before_namespace); [| apply validation_calls].
  intros k. destruct k; simpl; intros H; try reflexivity; discriminate H.
Qed.

(** A run in which monitor_deployment does not return never gets to
    health_check. *)
Lemma halted_in_monitor (c : config) (w : world) (r : abort) :
  result (monitor_deployment c w) = Abort r ->
  exit_zero (result (main c w)) = false /\
  Forall (only not_health) (trace (main c w)).
Proof.
  intros H. split.
  - destruct (exit_zero (result (main c w))) eqn:E; [| reflexivity].
    apply main_succeeds in E. destruct E as (_ & _ & _ & _ & E & _). congruence.
  - rewrite main_trace, stages_validation.
    apply Forall_app. split; [| repeat constructor].
    seq; [apply banner_calls |].
    seq; [apply validation_no_health |]. unfold deployment.
    seq; [apply setup_namespace_no_health |].
    seq; [apply deploy_model_no_health |].
    apply Forall_bind; [apply monitor_deployment_no_health |].
    intros [] Hret. congruence.
Qed.

Lemma reaches_monitor (c : config) (w : world) :
  result (validation c w) = Ret tt ->
  result (setup_namespace c w) = Ret tt ->
  result (deploy_model c w) = Ret tt ->
  forall r, result (monitor_deployment c w) = Abort r ->
  main c w =
  ((trace (banner c) ++ trace (validation c w) ++ trace (setup_namespace c w)
    ++ trace (deploy_model c w) ++ trace (monitor_deployment c w) ++ cleanup w)%list,
   Abort r).
Proof.
  intros Hv Hs Hd r Hm.
  rewrite (passed_validation c w Hv). unfold deployment.
  rewrite (bind_returns _ _ tt Hs), trace_pair, result_pair.
  rewrite (bind_returns _ _ tt Hd), trace_pair, result_pair.
  rewrite (bind_aborts _ _ r Hm), trace_pair, result_pair.
  now rewrite <- !app_assoc.
Qed.

(** C6.  In a real run, when the rollout wait fails, monitor_deployment
    logs the error, asks for the last 50 log lines of the pods and
    stops: the log request is its last call and its result is never a
    return.  The run then ends with a non-zero status, health_check
    is not run, and when the earlier stages passed the trace of the
    monitor is the last thing before the exit trap. *)
Theorem rollout_timeout_fatal (c : config) (w : world) (name : string) :
  DRY_RUN c = false ->
  deployment_name (MODEL_TYPE c) = Some name ->
  rollout_status w name (NAMESPACE c) (TIMEOUT c ++ "s") = false ->
  trace (monitor_deployment c w) =
    [Log INFO "Monitoring deployment progress...";
     Log INFO ("Waiting for deployment " ++ name ++ " to be ready...");
     Call (OcRolloutStatus name (NAMESPACE c) (TIMEOUT c ++ "s"));
     Log ERROR (not_ready name);
     Log INFO "Showing pod logs for debugging:";
     Call (OcLogs name (NAMESPACE c) 50)] /\
  (exists r, result (monitor_deployment c w) = Abort r) /\
  (logs w name (NAMESPACE c) 50 = true ->
   result (monitor_deployment c w) = Abort ExitOne) /\
  exit_zero (result (main c w)) = false /\
  Forall (only not_health) (trace (main c w)) /\
  (result (validation c w) = Ret tt ->
   result (setup_namespace c w) = Ret tt ->
   result (deploy_model c w) = Ret tt ->
   exists before,
     trace (main c w) = (before ++ trace (monitor_deployment c w) ++ cleanup w)%list).
Proof.
  intros Hdry Hname Hwait.
  pose proof (monitor_deployment_timed_out c w name Hdry Hname Hwait) as E.
  assert (Hr : result (monitor_deployment c w) =
               Abort (if logs w name (NAMESPACE c) 50 then ExitOne else ErrExit))
    by now rewrite E.
  repeat apply conj.
  - now rewrite E.
  - eauto.
  - intros Hlogs. now rewrite Hr, Hlogs.
  - exact (proj1 (halted_in_monitor c w _ Hr)).
  - exact (proj2 (halted_in_monitor c w _ Hr)).
  - intros Hv Hs Hd. rewrite (reaches_monitor c w Hv Hs Hd _ Hr), trace_pair.
    exists (trace (banner c) ++ trace (validation c w) ++ trace (setup_namespace c w)
            ++ trace (deploy_model c w))%list.
    now rewrite <- !app_assoc.
Qed.

Lemma rollout_timeout_fatal_witness :
  let c := invoke "llama-13b" "staging" false "600" in
  exit_zero (result (main c never_ready)) = false /\
  In (Call (OcLogs "llama-7b-inference" "ai-models" 50)) (trace (main c never_ready)) /\
  Forall (only not_health) (trace (main c never_ready)).
Proof.
  cbv zeta.
  destruct (rollout_timeout_fatal (invoke "llama-13b" "staging" false "600") never_ready
              "llama-7b-inference") as (_ & _ & _ & Hexit & Hhealth & _);
    try reflexivity.
  repeat apply conj; [exact Hexit | vm_compute; tauto | exact Hhealth].
Defined.

(** ** The health check *)

Lemma health_check_no_route (c : config) (w : world) (route : string) :
  DRY_RUN c = false ->
  route_name (MODEL_TYPE c) = Some route ->
  get_route w route (NAMESPACE c) = false ->
  health_check c w =
  ([Log INFO "Running health checks...";
    Call (OcGetRoute route (NAMESPACE c));
    Log WARNING (route_not_found route)], Ret tt).
Proof.
  intros Hdry Hroute Hget. unfold health_check. cbv zeta. rewrite Hdry, Hroute.
  unfold log_info at 1, expand, test at 1. rewrite !bind_ret. rewrite Hget.
  reflexivity.
Qed.

Lemma health_check_probe_fails (c : config) (w : world) (route host : string) :
  DRY_RUN c = false ->
  route_name (MODEL_TYPE c) = Some route ->
  get_route w route (NAMESPACE c) = true ->
  get_route_host w route (NAMESPACE c) = Some host ->
  curl w (health_url host) = false ->
  health_check c w =
  ([Log INFO "Running health checks...";
    Call (OcGetRoute route (NAMESPACE c));
    Call (OcGetRouteHost route (NAMESPACE c));
    Log INFO ("Testing health endpoint: " ++ health_url host);
    Call (Curl (health_url host));
    Log ERROR "Health check failed"], Abort ExitOne).
Proof.
  intros Hdry Hroute Hget Hhost Hprobe. unfold health_check. cbv zeta.
  rewrite Hdry, Hroute.
  unfold log_info at 1, expand, test at 1. rewrite !bind_ret. rewrite Hget, Hhost.
  unfold capture, log_info at 1, test at 1. rewrite !bind_ret. rewrite Hprobe.
  reflexivity.
Qed.

(** C7.  In a real run of health_check: when the route is absent, the
    stage logs a warning and returns, and the run ends with status 0
    provided the earlier stages returned; when the route is present
    and the request to its health path fails, the stage logs an error
    and ends the run by [exit 1]. *)
Theorem route_absent_warns_probe_failure_fatal (c : config) (w : world) (route : string) :
  DRY_RUN c = false ->
  route_name (MODEL_TYPE c) = Some route ->
  (get_route w route (NAMESPACE c) = false ->
   result (health_check c w) = Ret tt /\
   logged WARNING (trace (health_check c w)) = [route_not_found route] /\
   logged ERROR (trace (health_check c w)) = [] /\
   (result (validation c w) = Ret tt ->
    result (setup_namespace c w) = Ret tt ->
    result (deploy_model c w) = Ret tt ->
    result (monitor_deployment c w) = Ret tt ->
    exit_zero (result (main c w)) = true)) /\
  (forall host,
   get_route w route (NAMESPACE c) = true ->
   get_route_host w route (NAMESPACE c) = Some host ->
   curl w (health_url host) = false ->
   result (health_check c w) = Abort ExitOne /\
   logged ERROR (trace (health_check c w)) = ["Health check failed"] /\
   exit_zero (result (main c w)) = false).
Proof.
  intros Hdry Hroute. split.
  - intros Hget. rewrite (health_check_no_route c w route Hdry Hroute Hget).
    repeat apply conj; try reflexivity.
    intros Hv Hs Hd Hm. apply main_succeeds.
    apply validation_passes in Hv as [Hp Hr].
    rewrite (health_check_no_route c w route Hdry Hroute Hget). now repeat split.
  - intros host Hget Hhost Hprobe.
    pose proof (health_check_probe_fails c w route host Hdry Hroute Hget Hhost Hprobe) as E.
    rewrite E. repeat apply conj; try reflexivity.
    destruct (exit_zero (result (main c w))) eqn:X; [| reflexivity].
    apply main_succeeds in X. destruct X as (_ & _ & _ & _ & _ & X).
    rewrite E in X. discriminate X.
Qed.

Lemma route_absent_warns_probe_failure_fatal_witness :
  let c := invoke "code-llama" "staging" false "600" in
  (exit_zero (result (main c without_route)) = true /\
   logged WARNING (trace (health_check c without_route)) =
     ["Route llama-7b-route not found, skipping external health check"]) /\
  (exit_zero (result (main c unhealthy)) = false /\
   logged ERROR (trace (health_check c unhealthy)) = ["Health check failed"]).
Proof.
  cbv zeta. split.
  - destruct (route_absent_warns_probe_failure_fatal
                (invoke "code-llama" "staging" false "600") without_route "llama-7b-route")
      as [H _]; try reflexivity.
    destruct H as (_ & Hw & _ & Hmain); [reflexivity |].
    split; [apply Hmain; reflexivity | exact Hw].
  - destruct (route_absent_warns_probe_failure_fatal
                (invoke "code-llama" "staging" false "600") unhealthy "llama-7b-route")
      as [_ H]; try reflexivity.
    destruct (H "models.apps.example.com") as (_ & He & Hmain); try reflexivity.
    split; [exact Hmain | exact He].
Defined.

(** * Further properties of the script *)

(** ** Option parsing *)

Lemma ret_bind {A B} (a : A) (f : A -> Sh B) : bind (ret a) f = f a.
Proof. unfold ret. rewrite bind_ret. cbn [app]. symmetry. apply surjective_Sh. Qed.

Lemma parse_args_outcomes (args : list string) (c : config) :
  (exists c', parse_args args c = ([], Ret c')) \/
  parse_args args c = ([], Abort Unbound) \/
  parse_args args c = ([Usage], Abort ExitOne) \/
  (exists a, In a args /\
     parse_args args c = ([Log ERROR (unknown_option a); Usage], Abort ExitOne)).
Proof.
  functional induction (parse_args args c);
    try (now left; eexists);
    try (now right; left);
    try (now right; right; left);
    try (destruct IHs as [[c' H] | [H | [H | (b & Hb & H)]]];
         [ left; now exists c'
         | right; now left
         | right; right; now left
         | right; right; right; exists b; split; [simpl; tauto | exact H] ]).
  right; right; right. exists a. split; [now left | reflexivity].
Qed.

(** One step of the option loop, by the kind of its first argument. *)

Lemma takes_value_cases (f : string) :
  takes_value f = true ->
  f = "-m" \/ f = "--model-type" \/ f = "-n" \/ f = "--namespace" \/
  f = "-e" \/ f = "--environment" \/ f = "-t" \/ f = "--timeout".
Proof.
  unfold takes_value. rewrite !orb_true_iff, !String.eqb_eq. tauto.
Qed.

Lemma is_switch_cases (f : string) :
  is_switch f = true -> f = "-d" \/ f = "--dry-run" \/ f = "-v" \/ f = "--verbose".
Proof.
  unfold is_switch. rewrite !orb_true_iff, !String.eqb_eq. tauto.
Qed.

Lemma parse_step_value (f v : string) (rest : list string) (c : config) :
  takes_value f = true ->
  parse_args (f :: v :: rest) c = parse_args rest (set_value f v c).
Proof.
  intros H. apply takes_value_cases in H.
  destruct H as [-> | [-> | [-> | [-> | [-> | [-> | [-> | ->]]]]]]]; reflexivity.
Qed.

Lemma parse_step_switch (f : string) (rest : list string) (c : config) :
  is_switch f = true ->
  parse_args (f :: rest) c = parse_args rest (set_switch f c).
Proof.
  intros H. apply is_switch_cases in H.
  destruct H as [-> | [-> | [-> | ->]]]; reflexivity.
Qed.

Lemma parse_value_missing (f : string) (c : config) :
  takes_value f = true -> parse_args [f] c = ([], Abort Unbound).
Proof.
  intros H. apply takes_value_cases in H.
  destruct H as [-> | [-> | [-> | [-> | [-> | [-> | [-> | ->]]]]]]]; reflexivity.
Qed.

Lemma parse_help (h : string) (rest : list string) (c : config) :
  is_help h = true -> parse_args (h :: rest) c = ([Usage], Abort ExitOne).
Proof.
  unfold is_help. rewrite orb_true_iff, !String.eqb_eq.
  intros [-> | ->]; now destruct rest.
Qed.

Lemma parse_unknown (a : string) (rest : list string) (c : config) :
  known a = false ->
  parse_args (a :: rest) c = ([Log ERROR (unknown_option a); Usage], Abort ExitOne).
Proof.
  unfold known, takes_value, is_switch, is_help. rewrite !orb_false_iff.
  intros H. decompose [and] H. clear H. cbn [parse_args].
  repeat match goal with E : (a =? _) = false |- _ => rewrite E; clear E end.
  reflexivity.
Qed.

Lemma reads_parse (args : list string) (c c' : config) :
  reads args c c' -> parse_args args c = ([], Ret c').
Proof.
  induction 1 as [c | f v rest c c' Hf _ IH | f rest c c' Hf _ IH].
  - reflexivity.
  - now rewrite (parse_step_value f v rest c Hf).
  - now rewrite (parse_step_switch f rest c Hf).
Qed.

Lemma parse_args_continue (xs zs : list string) (c c' : config) (t : list event) :
  parse_args xs c = (t, Ret c') -> parse_args (xs ++ zs) c = parse_args zs c'.
Proof.
  revert c' t.
  functional induction (parse_args xs c); intros c' t H; try discriminate H;
    try (cbn [app parse_args]; rewrite ?e0, ?e1, ?e2, ?e3, ?e4, ?e5, ?e6;
         now apply (IHs c' t H)).
  injection H as _ <-. reflexivity.
Qed.

Lemma outcome_value (f v : string) (rest : list string) (c : config) (r : Sh config) :
  takes_value f = true ->
  parse_outcome rest (set_value f v c) r -> parse_outcome (f :: v :: rest) c r.
Proof.
  intros Hf [(c' & H & R) | [(H & pre & g & c' & -> & R & Hv)
    | [(H & pre & h & rest' & c' & -> & R & Hh) | (b & pre & rest' & c' & H & -> & R & Hk)]]].
  - left. exists c'. split; [exact H | now constructor].
  - right; left. split; [exact H |]. exists (f :: v :: pre), g, c'.
    repeat split; [now constructor | exact Hv].
  - right; right; left. split; [exact H |]. exists (f :: v :: pre), h, rest', c'.
    repeat split; [now constructor | exact Hh].
  - right; right; right. exists b, (f :: v :: pre), rest', c'.
    repeat split; [exact H | now constructor | exact Hk].
Qed.

Lemma outcome_switch (f : string) (rest : list string) (c : config) (r : Sh config) :
  is_switch f = true ->
  parse_outcome rest (set_switch f c) r -> parse_outcome (f :: rest) c r.
Proof.
  intros Hf [(c' & H & R) | [(H & pre & g & c' & -> & R & Hv)
    | [(H & pre & h & rest' & c' & -> & R & Hh) | (b & pre & rest' & c' & H & -> & R & Hk)]]].
  - left. exists c'. split; [exact H | now constructor].
  - right; left. split; [exact H |]. exists (f :: pre), g, c'.
    repeat split; [now constructor | exact Hv].
  - right; right; left. split; [exact H |]. exists (f :: pre), h, rest', c'.
    repeat split; [now constructor | exact Hh].
  - right; right; right. exists b, (f :: pre), rest', c'.
    repeat split; [exact H | now constructor | exact Hk].
Qed.

Ltac name_flag E :=
  apply orb_prop in E; destruct E as [E | E]; apply String.eqb_eq in E; subst.

(** Every run of the option loop reads a sequence of known options
    and then either comes to the end of the arguments or stops at the
    argument that follows. *)
Lemma parse_args_cases (args : list string) (c : config) :
  parse_outcome args c (parse_args args c).
Proof.
  functional induction (parse_args args c).
  - left. exists c. split; [reflexivity | constructor].
  - right; left. split; [reflexivity |]. exists [], a, c.
    repeat split; [constructor |]. name_flag e0; reflexivity.
  - name_flag e0; (apply outcome_value; [reflexivity | exact IHs]).
  - right; left. split; [reflexivity |]. exists [], a, c.
    repeat split; [constructor |]. name_flag e1; reflexivity.
  - name_flag e1; (apply outcome_value; [reflexivity | exact IHs]).
  - right; left. split; [reflexivity |]. exists [], a, c.
    repeat split; [constructor |]. name_flag e2; reflexivity.
  - name_flag e2; (apply outcome_value; [reflexivity | exact IHs]).
  - name_flag e3; (apply outcome_switch; [reflexivity | exact IHs]).
  - name_flag e4; (apply outcome_switch; [reflexivity | exact IHs]).
  - right; left. split; [reflexivity |]. exists [], a, c.
    repeat split; [constructor |]. name_flag e5; reflexivity.
  - name_flag e5; (apply outcome_value; [reflexivity | exact IHs]).
  - right; right; left. split; [reflexivity |]. exists [], a, rest, c.
    repeat split; [constructor | exact e6].
  - right; right; right. exists a, [], rest, c.
    repeat split; [constructor |].
    unfold known, takes_value, is_switch, is_help.
    apply orb_false_elim in e0 as [-> ->]. apply orb_false_elim in e1 as [-> ->].
    apply orb_false_elim in e2 as [-> ->]. apply orb_false_elim in e3 as [-> ->].
    apply orb_false_elim in e4 as [-> ->]. apply orb_false_elim in e5 as [-> ->].
    apply orb_false_elim in e6 as [-> ->]. reflexivity.
Qed.

(** X1.  How option parsing ends, by the arguments.  Call a sequence
    of options a list of flags each followed by its value ([-m],
    [-n], [-e], [-t] and their long forms) and of switches ([-d],
    [-v] and their long forms).  Parsing returns a configuration
    exactly when all the arguments form such a sequence, and the
    configuration is the one obtained by applying the options from
    left to right.  It stops on an unassigned [$2] exactly when the
    arguments are such a sequence followed by one last flag that
    takes a value.  It prints the usage exactly when such a sequence
    is followed by [-h] or [--help].  It logs "Unknown option: a" and
    prints the usage exactly when such a sequence is followed by [a]
    and [a] is none of the known flags, so the option logged is the
    first unknown one.  In the last three cases the script ends
    there: main is not entered, so no command is run and the exit
    trap, which main installs, does not write its line. *)
Theorem option_parsing_outcomes (args : list string) (w : world) :
  (forall c, parse_args args defaults = ([], Ret c) <-> reads args defaults c) /\
  (parse_args args defaults = ([], Abort Unbound) <->
   exists pre f c,
     args = (pre ++ [f])%list /\ reads pre defaults c /\ takes_value f = true) /\
  (parse_args args defaults = ([Usage], Abort ExitOne) <->
   exists pre h rest c,
     args = (pre ++ h :: rest)%list /\ reads pre defaults c /\ is_help h = true) /\
  (forall a,
     parse_args args defaults = ([Log ERROR (unknown_option a); Usage], Abort ExitOne) <->
     exists pre rest c,
       args = (pre ++ a :: rest)%list /\ reads pre defaults c /\ known a = false) /\
  ((exists c, parse_args args defaults = ([], Ret c) /\ script args w = main c w) \/
   script args w = ([], Abort Unbound) \/
   script args w = ([Usage], Abort ExitOne) \/
   (exists a, In a args /\
      script args w = ([Log ERROR (unknown_option a); Usage], Abort ExitOne))).
Proof.
  pose proof (parse_args_cases args defaults) as Hcases.
  repeat apply conj.
  - intros c. split; [| apply reads_parse].
    intros E. rewrite E in Hcases.
    destruct Hcases as [(c' & H & R) | [(H & _) | [(H & _) | (b & pre & rest & c' & H & _)]]];
      try discriminate H.
    injection H as <-. exact R.
  - intros E. rewrite E in Hcases.
    destruct Hcases as [(c' & H & R) | [(_ & H) | [(H & _) | (b & pre & rest & c' & H & _)]]];
      try discriminate H. exact H.
  - intros (pre & f & c & -> & R & Hf).
    rewrite (parse_args_continue pre [f] defaults c [] (reads_parse _ _ _ R)).
    now apply parse_value_missing.
  - intros E. rewrite E in Hcases.
    destruct Hcases as [(c' & H & R) | [(H & _) | [(_ & H) | (b & pre & rest & c' & H & _)]]];
      try discriminate H. exact H.
  - intros (pre & h & rest & c & -> & R & Hh).
    rewrite (parse_args_continue pre (h :: rest) defaults c [] (reads_parse _ _ _ R)).
    now apply parse_help.
  - intros a. split.
    + intros E. rewrite E in Hcases.
      destruct Hcases
        as [(c' & H & R) | [(H & _) | [(H & _) | (b & pre & rest & c' & H & Hl & R & Hk)]]];
        try discriminate H.
      injection H as H. subst b.
      now exists pre, rest, c'.
    + intros (pre & rest & c & -> & R & Hk).
      rewrite (parse_args_continue pre (a :: rest) defaults c [] (reads_parse _ _ _ R)).
      now apply parse_unknown.
  - unfold script.
    destruct (parse_args_outcomes args defaults) as [[c H] | [H | [H | (a & Ha & H)]]];
      rewrite H.
    + left. exists c. split; [reflexivity |]. apply (ret_bind c (fun c => main c w)).
    + right; now left.
    + right; right; now left.
    + right; right; right. now exists a.
Qed.

Lemma option_parsing_outcomes_witness :
  parse_args ["-m"; "llama-13b"; "--dry-run"; "--fast"; "-e"] defaults =
  ([Log ERROR "Unknown option: --fast"; Usage], Abort ExitOne).
Proof.
  apply (proj1 (proj2 (proj2 (proj2
           (option_parsing_outcomes ["-m"; "llama-13b"; "--dry-run"; "--fast"; "-e"]
              healthy)))) "--fast").
  exists ["-m"; "llama-13b"; "--dry-run"], ["-e"],
    (with_dry_run true (with_model_type "llama-13b" defaults)).
  repeat split.
  apply reads_value; [reflexivity |]. apply reads_switch; [reflexivity |]. constructor.
Defined.

Lemma parse_args_returns_silently (args : list string) (c c' : config) (t : list event) :
  parse_args args c = (t, Ret c') -> t = [].
Proof.
  intros H. destruct (parse_args_outcomes args c) as [[c2 E] | [E | [E | (a & _ & E)]]];
    rewrite E in H; congruence.
Qed.

(** X2.  What a parsed configuration can contain.  The two switches
    can only be turned on: a configuration that has DRY_RUN or
    VERBOSE set keeps it, and one that comes out with the switch set
    either had it or was given the flag.  Each text field is the one
    it had before or one of the arguments. *)
Theorem parsed_config_provenance (args : list string) (c c' : config) (t : list event) :
  parse_args args c = (t, Ret c') ->
  (DRY_RUN c = true -> DRY_RUN c' = true) /\
  (VERBOSE c = true -> VERBOSE c' = true) /\
  (DRY_RUN c' = true -> DRY_RUN c = true \/ In "-d" args \/ In "--dry-run" args) /\
  (VERBOSE c' = true -> VERBOSE c = true \/ In "-v" args \/ In "--verbose" args) /\
  (MODEL_TYPE c' = MODEL_TYPE c \/ In (MODEL_TYPE c') args) /\
  (NAMESPACE c' = NAMESPACE c \/ In (NAMESPACE c') args) /\
  (ENVIRONMENT c' = ENVIRONMENT c \/ In (ENVIRONMENT c') args) /\
  (TIMEOUT c' = TIMEOUT c \/ In (TIMEOUT c') args).
Proof.
  revert c' t.
  functional induction (parse_args args c); intros c' t H; try discriminate H.
  - injection H as _ <-. repeat split; auto.
  - specialize (IHs c' t H). cbn [DRY_RUN VERBOSE MODEL_TYPE NAMESPACE ENVIRONMENT TIMEOUT] in IHs.
    cbn [In]. intuition auto.
  - specialize (IHs c' t H). cbn [DRY_RUN VERBOSE MODEL_TYPE NAMESPACE ENVIRONMENT TIMEOUT] in IHs.
    cbn [In]. intuition auto.
  - specialize (IHs c' t H). cbn [DRY_RUN VERBOSE MODEL_TYPE NAMESPACE ENVIRONMENT TIMEOUT] in IHs.
    cbn [In]. intuition auto.
  - specialize (IHs c' t H). cbn [DRY_RUN VERBOSE MODEL_TYPE NAMESPACE ENVIRONMENT TIMEOUT] in IHs.
    apply orb_prop in e3. rewrite !String.eqb_eq in e3.
    cbn [In]. intuition auto.
  - specialize (IHs c' t H). cbn [DRY_RUN VERBOSE MODEL_TYPE NAMESPACE ENVIRONMENT TIMEOUT] in IHs.
    apply orb_prop in e4. rewrite !String.eqb_eq in e4.
    cbn [In]. intuition auto.
  - specialize (IHs c' t H). cbn [DRY_RUN VERBOSE MODEL_TYPE NAMESPACE ENVIRONMENT TIMEOUT] in IHs.
    cbn [In]. intuition auto.
Qed.

Lemma parsed_config_provenance_witness :
  parse_args ["-e"; "dev"; "--dry-run"] defaults =
    ([], Ret (invoke "llama-7b" "dev" true "600")) /\
  (DRY_RUN defaults = true \/
   In "-d" ["-e"; "dev"; "--dry-run"] \/ In "--dry-run" ["-e"; "dev"; "--dry-run"]).
Proof.
  split; [reflexivity |].
  destruct (parsed_config_provenance ["-e"; "dev"; "--dry-run"] defaults
              (invoke "llama-7b" "dev" true "600") [] eq_refl)
    as (_ & _ & Hdry & _).
  apply Hdry. reflexivity.
Defined.

(** X3.  Options are processed from left to right and compose: when
    a list of arguments parses to a configuration, parsing it
    followed by further arguments is parsing those further arguments
    from that configuration.  In particular an option given again at
    the end replaces the earlier value. *)
Theorem parse_args_app (xs ys : list string) (c c' : config) (t : list event) :
  parse_args xs c = (t, Ret c') ->
  parse_args (xs ++ ys) c = parse_args ys c' /\
  (forall m, parse_args (xs ++ ["-m"; m]) c = ([], Ret (with_model_type m c'))).
Proof.
  intros H. split; [now apply parse_args_continue with (t := t) |].
  intros m. now rewrite (parse_args_continue xs ["-m"; m] c c' t H).
Qed.

Lemma parse_args_app_witness :
  parse_args (["-m"; "llama-13b"; "-d"] ++ ["-m"; "code-llama"]) defaults =
  ([], Ret (with_model_type "code-llama" (invoke "llama-13b" "staging" true "600"))).
Proof.
  apply (parse_args_app ["-m"; "llama-13b"; "-d"] [] defaults
           (invoke "llama-13b" "staging" true "600") []).
  reflexivity.
Defined.

(** ** The model type test *)

Lemma prefix_empty (s : string) : String.prefix "" s = true.
Proof. destruct s; reflexivity. Qed.

Lemma prefix_spaced (m s : string) :
  String.prefix (m ++ " ") s = true <-> In m (spaced_prefixes s).
Proof.
  revert m. induction s as [| b s IH]; intros m.
  - split; [| intros []]. destruct m; discriminate.
  - cbn [spaced_prefixes]. rewrite in_app_iff, in_map_iff. destruct m as [| a m]; cbn [append].
    + rewrite prefix_cons, prefix_empty, andb_true_r.
      unfold is_space. rewrite (Ascii.eqb_sym b " ").
      destruct (Ascii.eqb " " b); cbn.
      * split; [now left; left | reflexivity].
      * split; [discriminate | intros [[] | (x & Hx & _)]; discriminate Hx].
    + rewrite prefix_cons. split.
      * intros H. apply andb_prop in H as [Hab H]. apply Ascii.eqb_eq in Hab; subst b.
        right. exists m. split; [reflexivity | now apply IH].
      * intros [H | (x & Hx & H)].
        -- destruct (is_space b); [destruct H as [H | []]; discriminate H | destruct H].
        -- injection Hx as -> ->. rewrite Ascii.eqb_refl. now apply IH.
Qed.

Lemma contains_spaced_runs (m s : string) :
  contains (" " ++ m ++ " ") s = true <-> In m (spaced_runs s).
Proof.
  induction s as [| b s IH].
  - split; [discriminate | intros []].
  - cbn [contains spaced_runs]. rewrite in_app_iff, orb_true_iff, IH.
    change (" " ++ m ++ " ") with (String " " (m ++ " ")).
    rewrite prefix_cons. unfold is_space. rewrite (Ascii.eqb_sym b " ").
    destruct (Ascii.eqb " " b); cbn [andb].
    + now rewrite prefix_spaced.
    + split; [intros [H | H]; [discriminate H | now right] | intros [[] | H]; now right].
Qed.

Lemma model_type_ok_accepted (m : string) :
  model_type_ok m = true <-> In m accepted_model_types.
Proof. unfold model_type_ok. rewrite contains_spaced_runs. reflexivity. Qed.

(** X4.  The model type test accepts exactly fifteen values: every
    run of one or more consecutive names of the list of valid models,
    joined by single spaces.  Among the values without a space these
    are the five valid models and nothing else. *)
Theorem model_type_test_accepts (m : string) :
  (model_type_ok m = true <-> In m accepted_model_types) /\
  (no_space m = true -> (model_type_ok m = true <-> In m valid_models)).
Proof.
  split.
  - apply model_type_ok_accepted.
  - intros Hm. split; [now apply model_type_ok_valid | apply valid_model_type_ok].
Qed.

Lemma model_type_test_accepts_witness :
  model_type_ok "llama-13b" = true <-> In "llama-13b" valid_models.
Proof. apply (model_type_test_accepts "llama-13b"). reflexivity. Defined.

(** ** When each stage passes *)

(** Case analysis on every answer a stage asks for. *)
Ltac crunch :=
  repeat (cbn -[String.append show_nat show_out show_Z model_type_ok deployment_name
                route_name helm_args env_values_file Z.eqb Z.ltb];
          match goal with
          | |- context [if ?b then _ else _] => destruct b eqn:?
          | |- context [match ?x with Some _ => _ | None => _ end] => destruct x eqn:?
          | |- context [match ?x with O => _ | S _ => _ end] => destruct x eqn:?
          end);
  cbn -[String.append show_nat show_out show_Z model_type_ok deployment_name
        route_name helm_args env_values_file Z.eqb Z.ltb].

Lemma required_tools_present (w : world) :
  (forall tool, In tool required_tools -> command_v w tool = true) <->
  command_v w "oc" = true /\ command_v w "kubectl" = true /\
  command_v w "helm" = true /\ command_v w "jq" = true.
Proof.
  split.
  - intros H. repeat split; apply H; simpl; tauto.
  - intros (H1 & H2 & H3 & H4) tool [<- | [<- | [<- | [<- | []]]]]; assumption.
Qed.

(** X5.  check_prerequisites returns exactly when the four required
    tools are installed, a session is open and the model type passes
    the test; it then has looked up the four tools, asked [oc whoami]
    once and logged no warning or error. *)
Theorem prerequisites_pass_iff (c : config) (w : world) :
  (result (check_prerequisites c w) = Ret tt <->
   (forall tool, In tool required_tools -> command_v w tool = true) /\
   oc_whoami w = true /\
   model_type_ok (MODEL_TYPE c) = true) /\
  (result (check_prerequisites c w) = Ret tt ->
   check_prerequisites c w =
   ([Log INFO "Checking prerequisites...";
     Call (CommandV "oc"); Call (CommandV "kubectl");
     Call (CommandV "helm"); Call (CommandV "jq");
     Call OcWhoami;
     Log SUCCESS "Prerequisites check passed"], Ret tt)).
Proof.
  rewrite required_tools_present.
  unfold check_prerequisites, required_tools.
  split; [split |]; crunch; intuition congruence.
Qed.

Lemma prerequisites_pass_iff_witness :
  check_prerequisites (invoke "code-llama" "dev" false "600") healthy =
  ([Log INFO "Checking prerequisites...";
    Call (CommandV "oc"); Call (CommandV "kubectl");
    Call (CommandV "helm"); Call (CommandV "jq");
    Call OcWhoami;
    Log SUCCESS "Prerequisites check passed"], Ret tt).
Proof.
  apply (prerequisites_pass_iff (invoke "code-llama" "dev" false "600") healthy).
  reflexivity.
Defined.



(** X7.  setup_namespace in a real run.  It asks whether the
    namespace exists and creates it only when it does not; it applies
    the access policy whether or not the namespace existed, unless
    the creation failed, which ends the run before the policy is
    applied.  It returns exactly when the namespace existed or was
    created and the policy was applied, and it logs no error or
    warning: its failures are those of the commands themselves. *)
Theorem setup_namespace_real_run (c : config) (w : world) :
  DRY_RUN c = false ->
  calls (trace (setup_namespace c w)) =
    OcGetNamespace (NAMESPACE c) ::
    (if get_namespace w (NAMESPACE c) then [OcApply (rbac_dir w) (NAMESPACE c)]
     else OcCreateNamespace (NAMESPACE c) ::
          (if create_namespace w (NAMESPACE c)
           then [OcApply (rbac_dir w) (NAMESPACE c)] else [])) /\
  (result (setup_namespace c w) = Ret tt <->
   (get_namespace w (NAMESPACE c) = true \/ create_namespace w (NAMESPACE c) = true) /\
   apply w (rbac_dir w) (NAMESPACE c) = true) /\
  (result (setup_namespace c w) = Ret tt \/ result (setup_namespace c w) = Abort ErrExit) /\
  logged ERROR (trace (setup_namespace c w)) = [] /\
  logged WARNING (trace (setup_namespace c w)) = [].
Proof.
  intros Hdry. unfold setup_namespace. rewrite Hdry.
  repeat apply conj; crunch; try reflexivity; intuition congruence.
Qed.

Lemma setup_namespace_real_run_witness :
  calls (trace (setup_namespace defaults (with_namespace healthy))) =
    [OcGetNamespace "ai-models"; OcApply "/opt/mlops/deployments/openshift/rbac/" "ai-models"].
Proof.
  apply (setup_namespace_real_run defaults (with_namespace healthy)). reflexivity.
Defined.

(** X8.  setup_namespace in a dry run asks whether the namespace
    exists and does nothing else: that is its only call, and it
    returns whatever the answer. *)
Theorem setup_namespace_dry_run (c : config) (w : world) :
  DRY_RUN c = true ->
  calls (trace (setup_namespace c w)) = [OcGetNamespace (NAMESPACE c)] /\
  result (setup_namespace c w) = Ret tt.
Proof.
  intros Hdry. unfold setup_namespace. rewrite Hdry. split; crunch; reflexivity.
Qed.

Lemma setup_namespace_dry_run_witness :
  calls (trace (setup_namespace (invoke "llama-7b" "dev" true "600") healthy)) =
    [OcGetNamespace "ai-models"].
Proof.
  apply (setup_namespace_dry_run (invoke "llama-7b" "dev" true "600") healthy). reflexivity.
Defined.

(** X9.  monitor_deployment once the rollout is ready.  A missing
    service and a service without endpoints are warnings: the stage
    returns.  It fails only when the endpoint query itself fails,
    and it never logs an error. *)
Theorem monitor_after_rollout (c : config) (w : world) (name : string) :
  DRY_RUN c = false ->
  deployment_name (MODEL_TYPE c) = Some name ->
  rollout_status w name (NAMESPACE c) (TIMEOUT c ++ "s") = true ->
  (result (monitor_deployment c w) = Ret tt <->
   get_service w (service_name name) (NAMESPACE c) = false \/
   get_endpoints w (service_name name) (NAMESPACE c) <> None) /\
  logged ERROR (trace (monitor_deployment c w)) = [] /\
  logged WARNING (trace (monitor_deployment c w)) =
    (if get_service w (service_name name) (NAMESPACE c) then
       match get_endpoints w (service_name name) (NAMESPACE c) with
       | Some n =>
           if Z.ltb 0 (default0 n) then []
           else [no_healthy_endpoints (service_name name)]
       | None => []
       end
     else [service_not_found (service_name name)]) /\
  calls (trace (monitor_deployment c w)) =
    OcRolloutStatus name (NAMESPACE c) (TIMEOUT c ++ "s") ::
    OcGetService (service_name name) (NAMESPACE c) ::
    (if get_service w (service_name name) (NAMESPACE c)
     then [OcGetEndpoints (service_name name) (NAMESPACE c)] else []).
Proof.
  intros Hdry Hname Hready. unfold monitor_deployment, service_name. cbv zeta.
  rewrite Hdry, Hname.
  unfold log_info at 1 2, expand, test at 1. rewrite !bind_ret, Hready.
  repeat apply conj; crunch; try reflexivity; intuition congruence.
Qed.

Lemma monitor_after_rollout_witness :
  let c := invoke "stable-diffusion" "staging" false "600" in
  result (monitor_deployment c (without_endpoints healthy)) = Ret tt /\
  logged WARNING (trace (monitor_deployment c (without_endpoints healthy))) =
    ["No healthy endpoints found for service stable-diffusion-xl-service"].
Proof.
  cbv zeta.
  destruct (monitor_after_rollout (invoke "stable-diffusion" "staging" false "600")
              (without_endpoints healthy) "stable-diffusion-xl")
    as (Hres & _ & Hwarn & _); try reflexivity.
  split; [| exact Hwarn].
  apply Hres. right. discriminate.
Defined.

(** X10.  health_check in a real run returns exactly when the model
    type has a route name and either the route is absent or its host
    is found and the request to [https://<host>/health] succeeds.
    When the route is present the stage makes three calls, the last
    one to that address; the only error it can log is the failed
    health check. *)
Theorem health_check_passes_iff (c : config) (w : world) :
  DRY_RUN c = false ->
  (result (health_check c w) = Ret tt <->
   exists route,
     route_name (MODEL_TYPE c) = Some route /\
     (get_route w route (NAMESPACE c) = false \/
      exists host,
        get_route_host w route (NAMESPACE c) = Some host /\
        curl w (health_url host) = true)) /\
  (forall route host,
     route_name (MODEL_TYPE c) = Some route ->
     get_route w route (NAMESPACE c) = true ->
     get_route_host w route (NAMESPACE c) = Some host ->
     calls (trace (health_check c w)) =
       [OcGetRoute route (NAMESPACE c); OcGetRouteHost route (NAMESPACE c);
        Curl ("https://" ++ host ++ "/health")]) /\
  (forall msg, In msg (logged ERROR (trace (health_check c w))) ->
               msg = "Health check failed").
Proof.
  intros Hdry. unfold health_check. cbv zeta. rewrite Hdry.
  destruct (route_name (MODEL_TYPE c)) as [route |].
  - unfold log_info at 1, expand, test at 1. rewrite !bind_ret.
    repeat apply conj.
    + crunch; intros H; try discriminate H;
        try (exists route; split; [reflexivity |]; (now left) || (right; eauto)).
      all: destruct H as (r & [= <-] & [H | (h & Hh & H)]); congruence.
    + crunch; intros H; try reflexivity; try discriminate H;
        destruct H as (r & [= <-] & [H | (h & Hh & H)]); congruence.
    + intros r host [= <-] Hget Hhost. rewrite Hget, Hhost.
      unfold health_url. crunch; reflexivity.
    + crunch; cbn; intros msg H; intuition.
  - repeat apply conj.
    + discriminate.
    + intros (r & H & _). discriminate H.
    + intros r host H. discriminate H.
    + intros msg [].
Qed.

Lemma health_check_passes_iff_witness :
  result (health_check (invoke "llama-13b" "staging" false "600") healthy) = Ret tt.
Proof.
  apply (proj1 (health_check_passes_iff (invoke "llama-13b" "staging" false "600") healthy
                  eq_refl)).
  exists "llama-7b-route". split; [reflexivity |]. right.
  exists "models.apps.example.com". split; reflexivity.
Defined.

(** ** Names chosen from the model type *)

Lemma names_agree (m : string) :
  (deployment_name m = None <-> route_name m = None) /\
  (deployment_name m = Some "llama-7b-inference" <-> route_name m = Some "llama-7b-route") /\
  (deployment_name m = Some "stable-diffusion-xl" <->
   route_name m = Some "stable-diffusion-route").
Proof.
  unfold deployment_name, route_name.
  destruct (glob_llama m) eqn:G, (m =? "stable-diffusion") eqn:S,
    (m =? "code-llama") eqn:C;
    cbn; repeat split; try congruence;
    apply String.eqb_eq in S; apply String.eqb_eq in C; congruence.
Qed.

(** X11.  The three [case] blocks on the model type agree.  The
    monitor and the health check leave their name unassigned for the
    same model types, and they pair the llama deployment with the
    llama route and the diffusion deployment with the diffusion
    route.  Each of the five valid models gets both names.  Of the
    values the model type test accepts, one gets neither:
    ["stable-diffusion code-llama"], for which a real run ends in
    monitor_deployment on the unassigned variable before any of its
    commands is run. *)
Theorem names_from_model_type (m : string) :
  (deployment_name m = None <-> route_name m = None) /\
  (deployment_name m = Some "llama-7b-inference" <-> route_name m = Some "llama-7b-route") /\
  (deployment_name m = Some "stable-diffusion-xl" <->
   route_name m = Some "stable-diffusion-route") /\
  (In m valid_models -> deployment_name m <> None /\ route_name m <> None) /\
  (model_type_ok m = true ->
   (deployment_name m = None <-> m = "stable-diffusion code-llama")) /\
  (forall c w,
     MODEL_TYPE c = m -> DRY_RUN c = false -> deployment_name m = None ->
     monitor_deployment c w =
     ([Log INFO "Monitoring deployment progress..."], Abort Unbound)).
Proof.
  destruct (names_agree m) as (H1 & H2 & H3).
  repeat apply conj; try tauto.
  - intros H. repeat (destruct H as [<- | H]; [split; discriminate |]). destruct H.
  - intros H. apply model_type_ok_accepted in H.
    repeat (destruct H as [<- | H];
            [split; intros X;
             first [reflexivity | discriminate X | vm_compute in X; discriminate X] |]).
    destruct H.
  - intros c w Hm Hdry Hname. unfold monitor_deployment. cbv zeta.
    rewrite Hdry, Hm, Hname. reflexivity.
Qed.

Lemma names_from_model_type_witness :
  monitor_deployment (invoke "stable-diffusion code-llama" "staging" false "600") healthy =
  ([Log INFO "Monitoring deployment progress..."], Abort Unbound).
Proof.
  apply (names_from_model_type "stable-diffusion code-llama"); reflexivity.
Defined.

(** ** The order of the stages *)

Lemma seq_all_cases (l : list (Sh unit)) :
  (Forall returns l /\ seq_all l = (concat (map trace l), Ret tt)) \/
  (exists pre s post r,
     l = (pre ++ s :: post)%list /\ Forall returns pre /\ result s = Abort r /\
     seq_all l = ((concat (map trace pre) ++ trace s)%list, Abort r)).
Proof.
  induction l as [| s l IH]; [left; split; [constructor | reflexivity] |].
  cbn [seq_all fold_right map concat]. fold (seq_all l).
  destruct (result s) as [[] | r] eqn:E.
  - rewrite (bind_returns s _ tt E).
    destruct IH as [[Hall ->] | (pre & s' & post & r & -> & Hpre & Hs' & ->)].
    + left. split; [now constructor | reflexivity].
    + right. exists (s :: pre), s', post, r. cbn [trace result fst snd].
      repeat split; [now constructor | exact Hs' |].
      cbn [map concat app]. now rewrite app_assoc.
  - right. exists [], s, l, r. rewrite (bind_aborts s _ r E).
    repeat split; [constructor | exact E].
Qed.

Lemma stages_pipeline (c : config) (w : world) :
  stages c w = (banner c ;; seq_all (pipeline c w) ;; log_success success_line).
Proof.
  unfold stages, pipeline, seq_all. cbn [fold_right].
  now rewrite !bind_assoc, ret_bind.
Qed.

Lemma main_cases (c : config) (w : world) :
  (Forall returns (pipeline c w) /\
   main c w =
   ((trace (banner c) ++ concat (map trace (pipeline c w))
     ++ [Log SUCCESS success_line] ++ cleanup w)%list, Ret tt)) \/
  (exists pre s post r,
     pipeline c w = (pre ++ s :: post)%list /\ Forall returns pre /\
     result s = Abort r /\
     main c w =
     ((trace (banner c) ++ concat (map trace pre) ++ trace s ++ cleanup w)%list,
      Abort r)).
Proof.
  rewrite (surjective_Sh (main c w)), main_trace, main_result, stages_pipeline.
  rewrite (bind_returns (banner c) _ tt (banner_returns c)), trace_pair, result_pair.
  destruct (seq_all_cases (pipeline c w))
    as [[Hall E] | (pre & s & post & r & Hl & Hpre & Hs & E)]; rewrite E.
  - left. split; [exact Hall |]. rewrite bind_ret, trace_pair, result_pair.
    unfold log_success. cbn [trace result fst snd]. now rewrite <- !app_assoc.
  - right. exists pre, s, post, r. rewrite bind_abort, trace_pair, result_pair.
    repeat split; try assumption. now rewrite <- !app_assoc.
Qed.

(** X12.  main is fail-fast.  Either all six stages return, and the
    run consists of the banner, the events of the six stages in
    order, the final success line and the line of the exit trap, with
    status 0; or some stage is the first not to return, and the run
    consists of the banner, the events of the stages before it, its
    own events and the line of the exit trap, ending the way that
    stage ended: nothing of a later stage happens. *)
Theorem main_fail_fast (c : config) (w : world) :
  (Forall returns (pipeline c w) /\
   main c w =
   ((trace (banner c) ++ concat (map trace (pipeline c w))
     ++ [Log SUCCESS success_line] ++ cleanup w)%list, Ret tt)) \/
  (exists pre s post r,
     pipeline c w = (pre ++ s :: post)%list /\ Forall returns pre /\
     result s = Abort r /\
     main c w =
     ((trace (banner c) ++ concat (map trace pre) ++ trace s ++ cleanup w)%list,
      Abort r)).
Proof. apply main_cases. Qed.

Lemma main_fail_fast_witness :
  exists pre s post r,
    pipeline defaults never_ready = (pre ++ s :: post)%list /\
    length pre = 4 /\ result s = Abort r /\ snd (main defaults never_ready) = Abort r.
Proof.
  destruct (main_fail_fast defaults never_ready)
    as [[Hall _] | (pre & s & post & r & Hl & Hpre & Hs & E)].
  - exfalso. unfold pipeline in Hall.
    repeat match goal with H : Forall _ (_ :: _) |- _ => inversion_clear H end.
    match goal with H : returns (monitor_deployment _ _) |- _ => discriminate H end.
  - exists pre, s, post, r. repeat split; try assumption; [| now rewrite E].
    destruct pre as [| s1 [| s2 [| s3 [| s4 [| s5 pre]]]]]; try reflexivity;
      exfalso; unfold pipeline in Hl; cbn [app] in Hl.
    + injection Hl as <- _. discriminate Hs.
    + injection Hl as _ <- _. discriminate Hs.
    + injection Hl as _ _ <- _. discriminate Hs.
    + injection Hl as _ _ _ <- _. discriminate Hs.
    + injection Hl as <- <- <- <- <- Hl.
      inversion_clear Hpre as [| ? ? _ Hpre']. inversion_clear Hpre' as [| ? ? _ Hpre].
      inversion_clear Hpre as [| ? ? _ Hpre']. inversion_clear Hpre' as [| ? ? _ Hpre].
      inversion_clear Hpre as [| ? ? H5 _]. discriminate H5.
Defined.

(** ** The final success line *)

Ltac unfinished_walk :=
  repeat match goal with
         | |- _ =>
             solve [unfold log_info, log_success, log_warning, log_error, exit1, ret,
                      test, must, capture, expand, trace, unfinished;
                    simpl; repeat constructor]
         | |- Forall _ (trace (bind _ _)) => apply Forall_bind; [| intros ? _]
         | |- Forall _ (trace (if ?b then _ else _)) => destruct b
         end.

Lemma check_tools_unfinished (w : world) (tools : list string) :
  Forall unfinished (trace (check_tools w tools)).
Proof.
  induction tools as [| tool tools IH]; [unfinished_walk |].
  rewrite check_tools_cons.
  apply Forall_bind; [unfinished_walk |]. intros [] _; [exact IH | unfinished_walk].
Qed.

Lemma monitor_deployment_unfinished (c : config) (w : world) :
  Forall unfinished (trace (monitor_deployment c w)).
Proof.
  unfold monitor_deployment. cbv zeta. destruct (DRY_RUN c); [unfinished_walk |].
  destruct (deployment_name (MODEL_TYPE c)) as [name |] eqn:E; [| unfinished_walk].
  apply deployment_name_cases in E.
  unfold log_info at 1, expand. rewrite bind_ret, bind_ret, !trace_pair.
  apply Forall_app. split; [repeat constructor |].
  apply Forall_app. split; [constructor |].
  destruct E as [-> | [_ ->]]; unfinished_walk.
Qed.

Lemma pipeline_unfinished (c : config) (w : world) :
  Forall (fun s => Forall unfinished (trace s)) (pipeline c w).
Proof.
  unfold pipeline. repeat constructor.
  - unfold check_prerequisites.
    apply Forall_bind; [unfinished_walk |]. intros _ _.
    apply Forall_bind; [apply check_tools_unfinished |]. intros _ _. unfinished_walk.
  - unfold check_resources. unfinished_walk.
  - unfold setup_namespace. cbv zeta. unfinished_walk.
  - unfold deploy_model. unfinished_walk.
  - apply monitor_deployment_unfinished.
  - unfold health_check. cbv zeta. unfinished_walk.
Qed.

Lemma unfinished_not_logged (t : list event) :
  Forall unfinished t -> ~ In success_line (logged SUCCESS t).
Proof.
  induction 1 as [| e t He _ IH]; [intros [] |].
  unfold logged. cbn [flat_map]. fold (logged SUCCESS t).
  intros H. apply in_app_or in H as [H | H]; [| now apply IH].
  destruct e as [[] msg | | k]; try destruct H.
  - subst msg. discriminate He.
  - destruct H.
Qed.

Lemma Forall_prefix {A} (P : A -> Prop) (pre post : list A) :
  Forall P (pre ++ post) -> Forall P pre.
Proof. intros H. now apply Forall_app in H. Qed.

(** X13.  The line "Deployment completed successfully!" is logged
    exactly when the run ends with status 0: no stage logs it, and
    main logs it only after the last stage has returned. *)
Theorem success_line_iff_exit_zero (c : config) (w : world) :
  In success_line (logged SUCCESS (trace (main c w))) <->
  exit_zero (result (main c w)) = true.
Proof.
  destruct (main_cases c w) as [[_ E] | (pre & s & post & r & Hl & _ & _ & E)];
    rewrite E, trace_pair, result_pair.
  - split; [reflexivity | intros _].
    unfold logged. rewrite !flat_map_app. apply in_or_app. right.
    apply in_or_app. right. now left.
  - split; [| discriminate]. intros H. exfalso. revert H.
    apply unfinished_not_logged.
    pose proof (pipeline_unfinished c w) as Hq. rewrite Hl in Hq.
    apply Forall_app in Hq as [Hpre Hs]. inversion_clear Hs as [| ? ? Hs' _].
    apply Forall_app. split; [unfold banner; unfinished_walk |].
    apply Forall_app. split.
    + clear -Hpre. induction Hpre as [| x l Hx _ IH]; [constructor |].
      cbn [map concat]. apply Forall_app. now split.
    + apply Forall_app. split; [exact Hs' | repeat constructor].
Qed.

Lemma success_line_iff_exit_zero_witness :
  In success_line (logged SUCCESS (trace (main defaults healthy))).
Proof. apply (success_line_iff_exit_zero defaults healthy). reflexivity. Defined.

(** ** Error lines *)

Lemma disciplined_bind {A B} (m : Sh A) (f : A -> Sh B) :
  disciplined m ->
  (forall a, result m = Ret a -> disciplined (f a)) ->
  disciplined (bind m f).
Proof.
  unfold disciplined. destruct m as [t [a | r]]; cbn [result trace fst snd]; intros Hm Hf.
  - rewrite bind_ret, result_pair, trace_pair.
    unfold logged in *. rewrite flat_map_app, Hm. cbn [app]. now apply Hf.
  - rewrite bind_abort. exact Hm.
Qed.

Ltac discipline :=
  unfold disciplined; crunch; first [reflexivity | lia].

Lemma pipeline_disciplined (c : config) (w : world) :
  Forall disciplined (pipeline c w).
Proof.
  unfold pipeline. repeat constructor.
  - unfold check_prerequisites, required_tools. discipline.
  - unfold check_resources. discipline.
  - unfold setup_namespace. discipline.
  - unfold deploy_model. discipline.
  - unfold monitor_deployment. discipline.
  - unfold health_check. discipline.
Qed.

Lemma stages_disciplined (c : config) (w : world) : disciplined (stages c w).
Proof.
  pose proof (pipeline_disciplined c w) as H. unfold pipeline in H.
  repeat match goal with X : Forall _ (_ :: _) |- _ => inversion_clear X end.
  unfold stages.
  repeat (apply disciplined_bind; [first [assumption | reflexivity] | intros _ _]).
  reflexivity.
Qed.

(** X14.  Error lines and the exit status of main.  A run logs at
    most one error line.  A run that ends with status 0 has logged
    none, and a run that ends by the script's own [exit 1] has logged
    exactly one.  A run ended by a failing command or an unassigned
    variable can leave no error line at all. *)
Theorem error_lines (c : config) (w : world) :
  length (logged ERROR (trace (main c w))) <= 1 /\
  (exit_zero (result (main c w)) = true -> logged ERROR (trace (main c w)) = []) /\
  (result (main c w) = Abort ExitOne -> length (logged ERROR (trace (main c w))) = 1) /\
  (logged ERROR (trace (main c w)) <> [] -> exit_zero (result (main c w)) = false).
Proof.
  pose proof (stages_disciplined c w) as H. unfold disciplined in H.
  rewrite main_trace, main_result.
  assert (E : logged ERROR (trace (stages c w) ++ cleanup w) =
              logged ERROR (trace (stages c w))).
  { unfold logged. rewrite flat_map_app. cbn. apply app_nil_r. }
  rewrite E. clear E.
  set (errors := logged ERROR (trace (stages c w))) in *.
  destruct (result (stages c w)) as [[] | []]; cbn [exit_zero];
    repeat split; intros; try lia; try congruence; try discriminate.
  rewrite H. cbn. lia.
Qed.

Lemma error_lines_witness :
  logged ERROR (trace (main defaults healthy)) = [] /\
  length (logged ERROR (trace (main defaults no_nodes))) = 1 /\
  (result (main defaults (create_refused healthy)) = Abort ErrExit /\
   logged ERROR (trace (main defaults (create_refused healthy))) = []).
Proof.
  split; [| split; [| split; reflexivity]].
  - apply (proj1 (proj2 (error_lines defaults healthy))). reflexivity.
  - apply (proj1 (proj2 (proj2 (error_lines defaults no_nodes)))). reflexivity.
Defined.

(** ** The order of the external commands *)

Lemma climb_app (lo : nat) (l1 l2 : list call) :
  climb lo (l1 ++ l2) =
  match climb lo l1 with
  | Some mid => climb mid l2
  | None => None
  end.
Proof.
  revert lo. induction l1 as [| k l1 IH]; intros lo; [reflexivity |].
  cbn [app climb]. destruct (Nat.leb lo (call_rank k)); [apply IH | reflexivity].
Qed.

Lemma climb_lower (lo lo' top : nat) (ks : list call) :
  lo' <= lo -> climb lo ks = Some top ->
  exists top', climb lo' ks = Some top' /\ top' <= top.
Proof.
  intros Hle. destruct ks as [| k ks]; cbn [climb].
  - intros [= <-]. now exists lo'.
  - destruct (Nat.leb lo (call_rank k)) eqn:E; [| discriminate].
    apply Nat.leb_le in E. intros H.
    assert (E' : Nat.leb lo' (call_rank k) = true) by (apply Nat.leb_le; lia).
    rewrite E'. now exists top.
Qed.

Lemma climb_bounds (lo top : nat) (ks : list call) :
  climb lo ks = Some top ->
  lo <= top /\ Forall (fun k => lo <= call_rank k < top) ks.
Proof.
  revert lo. induction ks as [| k ks IH]; intros lo; cbn [climb].
  - intros [= <-]. split; [lia | constructor].
  - destruct (Nat.leb lo (call_rank k)) eqn:E; [| discriminate].
    apply Nat.leb_le in E. intros H. apply IH in H as [Hle Hall].
    split; [lia |]. constructor; [lia |].
    eapply Forall_impl; [| exact Hall]. cbn. intros; lia.
Qed.

Lemma climb_sorted (lo top : nat) (ks : list call) :
  climb lo ks = Some top -> StronglySorted earlier ks.
Proof.
  revert lo. induction ks as [| k ks IH]; intros lo; cbn [climb]; [constructor |].
  destruct (Nat.leb lo (call_rank k)); [| discriminate].
  intros H. constructor; [now apply (IH _ H) |].
  apply climb_bounds in H as [_ H].
  eapply Forall_impl; [| exact H]. unfold earlier. cbn. intros; lia.
Qed.

Lemma sorted_NoDup (ks : list call) : StronglySorted earlier ks -> NoDup ks.
Proof.
  induction 1 as [| k ks _ IH Hall]; constructor; [| exact IH].
  intros Hin. rewrite Forall_forall in Hall. specialize (Hall k Hin).
  unfold earlier in Hall. lia.
Qed.

Lemma spans_bind {A B} (lo mid hi : nat) (m : Sh A) (f : A -> Sh B) :
  mid <= hi ->
  spans lo mid m -> (forall a, spans mid hi (f a)) -> spans lo hi (bind m f).
Proof.
  intros Hle (top & Hm & Htop) Hf. unfold spans.
  destruct m as [t [a | r]]; cbn [trace fst] in Hm.
  - rewrite bind_ret, trace_pair. unfold calls in *. rewrite flat_map_app.
    fold (calls t) in *. fold (calls (trace (f a))). rewrite climb_app, Hm.
    destruct (Hf a) as (top2 & H2 & Hle2).
    destruct (climb_lower mid top top2 _ Htop H2) as (top' & H' & Hle').
    exists top'. split; [exact H' | lia].
  - rewrite bind_abort, trace_pair. exists top. split; [exact Hm | lia].
Qed.

Ltac span := unfold spans; crunch; eexists; (split; [reflexivity | cbn; lia]).

Lemma stages_span (c : config) (w : world) : spans 0 19 (stages c w).
Proof.
  unfold stages.
  apply (spans_bind 0 0 19); [lia | unfold banner; span |]. intros _.
  apply (spans_bind 0 5 19); [lia | unfold check_prerequisites, required_tools; span |].
  intros _.
  apply (spans_bind 5 8 19); [lia | unfold check_resources; span |]. intros _.
  apply (spans_bind 8 11 19); [lia | unfold setup_namespace; span |]. intros _.
  apply (spans_bind 11 12 19); [lia | unfold deploy_model; span |]. intros _.
  apply (spans_bind 12 16 19); [lia | unfold monitor_deployment; span |]. intros _.
  apply (spans_bind 16 19 19); [lia | unfold health_check; span |]. intros _.
  span.
Qed.

(** X15.  Across a whole run the external commands are issued in the
    order in which the script lists them, from the tool look-ups to
    the health request, each at most once: no command is repeated or
    retried. *)
Theorem commands_once_in_order (c : config) (w : world) :
  StronglySorted earlier (calls (trace (main c w))) /\
  NoDup (calls (trace (main c w))).
Proof.
  assert (E : calls (trace (main c w)) = calls (trace (stages c w))).
  { rewrite main_trace. unfold calls. rewrite flat_map_app. cbn. apply app_nil_r. }
  rewrite E. destruct (stages_span c w) as (top & H & _).
  apply climb_sorted in H. split; [exact H | now apply sorted_NoDup].
Qed.

Lemma commands_once_in_order_witness :
  NoDup (calls (trace (main defaults healthy))).
Proof. apply (commands_once_in_order defaults healthy). Defined.

(** ** When a run succeeds *)

Lemma check_prerequisites_returns_iff (c : config) (w : world) :
  result (check_prerequisites c w) = Ret tt <->
  (forall tool, In tool required_tools -> command_v w tool = true) /\
  oc_whoami w = true /\ model_type_ok (MODEL_TYPE c) = true.
Proof.
  rewrite required_tools_present. unfold check_prerequisites, required_tools.
  split; crunch; intuition congruence.
Qed.

Lemma check_resources_returns_iff (c : config) (w : world) :
  result (check_resources c w) = Ret tt <->
  exists n g k,
    get_nodes w = Some (S n) /\ describe_gpus w = Some g /\
    get_storageclass w = Some (S k).
Proof.
  split; [apply check_resources_passes |].
  intros (n & g & k & Hn & Hg & Hk). unfold check_resources. rewrite Hn, Hg, Hk.
  crunch; reflexivity.
Qed.






(** ** What a dry run logs about helm *)

(** X17.  In a dry run deploy_model hands log_info the helm command,
    the words of [helm_args] at that point joined by spaces, and runs
    helm next: the two log calls are immediately followed by the call
    of helm, which is the first call of the stage.  Without VERBOSE
    the arguments run are the ones handed to log_info.  With VERBOSE
    they are not: [--debug] is appended after the line has been
    logged, so helm is run with one argument more.  (This is about
    the text handed to log_info, which [echo -e] then renders.) *)
Theorem dry_run_command_line (c : config) (w : world) :
  DRY_RUN c = true ->
  (exists before after,
     trace (deploy_model c w) =
       (before
        ++ [Log INFO "[DRY RUN] Helm deployment command:";
            Log INFO (helm_command_line (spec_args c w ++ ["--dry-run"]));
            Call (Helm (helm_args c w))]
        ++ after)%list /\
     calls before = []) /\
  (VERBOSE c = false -> helm_args c w = (spec_args c w ++ ["--dry-run"])%list) /\
  (VERBOSE c = true ->
   helm_args c w = ((spec_args c w ++ ["--dry-run"]) ++ ["--debug"])%list).
Proof.
  intros Hdry. repeat apply conj.
  - unfold deploy_model. rewrite Hdry.
    destruct (file_exists w (env_values_file c w)), (helm w (helm_args c w));
      cbn -[String.append helm_args spec_args String.concat env_values_file];
      unfold helm_command_line.
    + exists [Log INFO ("Deploying model: " ++ MODEL_TYPE c)],
        [Log SUCCESS "Model deployment completed"]. split; reflexivity.
    + exists [Log INFO ("Deploying model: " ++ MODEL_TYPE c)],
        [Log ERROR "Model deployment failed"]. split; reflexivity.
    + exists [Log INFO ("Deploying model: " ++ MODEL_TYPE c);
              Log WARNING ("Environment-specific values file not found: "
                           ++ env_values_file c w)],
        [Log SUCCESS "Model deployment completed"]. split; reflexivity.
    + exists [Log INFO ("Deploying model: " ++ MODEL_TYPE c);
              Log WARNING ("Environment-specific values file not found: "
                           ++ env_values_file c w)],
        [Log ERROR "Model deployment failed"]. split; reflexivity.
  - intros Hv. unfold helm_args. rewrite Hdry, Hv. reflexivity.
  - intros Hv. unfold helm_args. rewrite Hdry, Hv. now rewrite app_assoc.
Qed.

Lemma dry_run_command_line_witness :
  let c := invoke "llama-7b" "staging" true "600" in
  helm_args c healthy = (spec_args c healthy ++ ["--dry-run"])%list.
Proof.
  cbv zeta.
  apply (dry_run_command_line (invoke "llama-7b" "staging" true "600") healthy);
    reflexivity.
Defined.

(** ** Readings that are only reported *)





(** ** No change without validation *)

Lemma only_in (P : call -> bool) (t : list event) (k : call) :
  Forall (only P) t -> In (Call k) t -> P k = true.
Proof. intros H Hin. rewrite Forall_forall in H. exact (H _ Hin). Qed.

(** X19.  A run changes the cluster only after validation.  If a run
    issues a command that changes the cluster (creating the
    namespace, applying the policy, a helm upgrade without
    [--dry-run]), then it is not a dry run, the four tools are
    installed, a session is open, the model type passed the test, and
    the cluster has an accelerator node and a storage class. *)
Theorem mutation_requires_validation (c : config) (w : world) (k : call) :
  In (Call k) (trace (main c w)) ->
  mutating k = true ->
  DRY_RUN c = false /\
  (forall tool, In tool required_tools -> command_v w tool = true) /\
  oc_whoami w = true /\
  model_type_ok (MODEL_TYPE c) = true /\
  (exists n g s,
     get_nodes w = Some (S n) /\ describe_gpus w = Some g /\
     get_storageclass w = Some (S s)).
Proof.
  intros Hin Hmut.
  assert (Hdry : DRY_RUN c = false).
  { destruct (DRY_RUN c) eqn:E; [| reflexivity].
    pose proof (only_in _ _ k (main_dry c w E) Hin) as H. cbn in H.
    rewrite Hmut in H. discriminate H. }
  assert (Hval : result (validation c w) = Ret tt).
  { destruct (result (validation c w)) as [[] | r] eqn:E; [reflexivity |].
    rewrite (halted_in_validation c w r E), trace_pair in Hin.
    assert (H : Forall harmless (trace (banner c) ++ trace (validation c w) ++ cleanup w)).
    { apply Forall_app. split; [apply banner_calls |].
      apply Forall_app. split; [apply validation_harmless | repeat constructor]. }
    pose proof (only_in _ _ k H Hin) as H'. cbn in H'.
    rewrite Hmut in H'. discriminate H'. }
  apply validation_passes in Hval as [Hp Hr].
  apply check_prerequisites_returns_iff in Hp.
  apply check_resources_returns_iff in Hr.
  tauto.
Qed.

Lemma mutation_requires_validation_witness :
  oc_whoami healthy = true /\ DRY_RUN defaults = false.
Proof.
  destruct (mutation_requires_validation defaults healthy (OcCreateNamespace "ai-models"))
    as (Hdry & _ & Hwho & _).
  - vm_compute. tauto.
  - reflexivity.
  - split; [exact Hwho | exact Hdry].
Defined.

(** ** The dry-run flag on the command line *)

Lemma parse_keeps_dry_run (args : list string) (c c' : config) (t : list event) :
  parse_args args c = (t, Ret c') -> DRY_RUN c = true -> DRY_RUN c' = true.
Proof.
  revert c' t.
  functional induction (parse_args args c); intros c' t H Hd; try discriminate H;
    try (now apply (IHs c' t H)).
  injection H as _ <-. exact Hd.
Qed.

(** X20.  Once [-d] or [--dry-run] has been read as an option,
    nothing that follows on the command line can make the script
    change the cluster: whatever the remaining arguments and whatever
    the surroundings answer, no command that changes the cluster is
    run. *)
Theorem dry_run_flag_is_final (pre rest : list string) (flag : string)
    (c : config) (t : list event) (w : world) :
  parse_args pre defaults = (t, Ret c) ->
  flag = "-d" \/ flag = "--dry-run" ->
  Forall harmless (trace (script (pre ++ flag :: rest) w)).
Proof.
  intros Hpre Hflag. unfold script.
  rewrite (parse_args_continue pre (flag :: rest) defaults c t Hpre).
  assert (E : parse_args (flag :: rest) c = parse_args rest (with_dry_run true c)).
  { destruct Hflag as [-> | ->]; reflexivity. }
  rewrite E.
  destruct (parse_args rest (with_dry_run true c)) as [u [c' | r]] eqn:P.
  - rewrite bind_ret, trace_pair.
    rewrite (parse_args_returns_silently _ _ _ _ P). cbn [app].
    apply main_dry. now apply (parse_keeps_dry_run rest (with_dry_run true c) c' u P).
  - rewrite bind_abort, trace_pair.
    destruct (parse_args_outcomes rest (with_dry_run true c))
      as [[c2 H] | [H | [H | (a & _ & H)]]]; rewrite H in P; injection P as <- _;
      repeat constructor.
Qed.

Lemma dry_run_flag_is_final_witness :
  Forall harmless (trace (script (["-m"; "llama-70b"] ++ "-d" :: ["-e"; "production"]) healthy)).
Proof.
  apply (dry_run_flag_is_final ["-m"; "llama-70b"] ["-e"; "production"] "-d"
           (invoke "llama-70b" "staging" false "600") []).
  - reflexivity.
  - now left.
Defined.
